(** * PayPal MCP server: validators, token provider and tool dispatcher

    A shallow embedding of [src/index.ts].  Caller-supplied arguments are
    untyped JavaScript values; the validators build fresh objects out of
    them or throw; the dispatcher acquires the bearer credential, runs the
    validator of the named tool and forwards the payload upstream. *)

From Stdlib Require Import QArith.
From stdpp Require Import gmap strings list fin_maps.

Local Open Scope string_scope.
Local Set Warnings "-register-all".

(** ** JavaScript values *)

(** A JavaScript number is a binary64 double: NaN, an infinity, or a finite
    rational ([+0] and [-0] are both [Fin 0]).  The code only compares
    numbers, tests them for truthiness and prints them; the first two depend
    on nothing else. *)
Inductive number :=
| NaN
| PosInf
| NegInf
| Fin (q : Q).

(** Objects are finite maps from property names to values.  A property that
    holds [undefined] is present in the map ([JSON.stringify] omits it, but
    [in] and [Object.keys] see it). *)
Inductive value :=
| VUndefined
| VNull
| VBool (b : bool)
| VNum (n : number)
| VStr (s : string)
| VArr (l : list value)
| VObj (o : gmap string value).

(** [a <= b] on doubles: false as soon as one side is NaN. *)
Definition num_le (a b : number) : bool :=
  match a, b with
  | NaN, _ | _, NaN => false
  | NegInf, _ => true
  | _, PosInf => true
  | Fin x, Fin y => Qle_bool x y
  | _, _ => false
  end.

(** [a < b] on doubles. *)
Definition num_lt (a b : number) : bool :=
  match a, b with
  | NaN, _ | _, NaN => false
  | PosInf, _ | _, NegInf => false
  | NegInf, _ | _, PosInf => true
  | Fin x, Fin y => negb (Qle_bool y x)
  end.

Definition num_of_Z (z : Z) : number := Fin (inject_Z z).

(** [typeof v] *)
Definition typeof (v : value) : string :=
  match v with
  | VUndefined => "undefined"
  | VNull => "object"
  | VBool _ => "boolean"
  | VNum _ => "number"
  | VStr _ => "string"
  | VArr _ => "object"
  | VObj _ => "object"
  end.

(** ToBoolean: what [!v], [v || w] and [if (v)] test. *)
Definition truthy (v : value) : bool :=
  match v with
  | VUndefined | VNull => false
  | VBool b => b
  | VNum NaN => false
  | VNum (Fin q) => negb (Qeq_bool q 0)
  | VNum _ => true
  | VStr s => negb (String.eqb s "")
  | VArr _ | VObj _ => true
  end.

(** [Array.isArray(v)] *)
Definition isArray (v : value) : bool :=
  match v with VArr _ => true | _ => false end.

(** The elements of a value already known to be an array. *)
Definition elements (v : value) : list value :=
  match v with VArr l => l | _ => [] end.

(** [lits.includes(v)] for an array of string literals (SameValueZero: only
    a string equal to one of the literals is included). *)
Definition includes (lits : list string) (v : value) : bool :=
  match v with
  | VStr s => bool_decide (s ∈ lits)
  | _ => false
  end.

(** ** Errors and results *)

Inductive ErrorCode := InvalidParams | MethodNotFound | InternalError.

(** The [AxiosError] type of the source: [response?.data?.message] and
    [message]. *)
Record AxiosError := {
  response_data_message : option string;
  axios_message : string
}.

(** What a [throw] can carry: the SDK's [McpError] with the code and text
    given to its constructor, a plain [Error], the engine's [TypeError] for
    a property read on [null] or [undefined], and a failed HTTP call. *)
Inductive exn :=
| McpError (code : ErrorCode) (message : string)
| Error (message : string)
| TypeError (base : value) (property : string)
| Axios (e : AxiosError).

Inductive result (A : Type) :=
| Ok (a : A)
| Throw (e : exn).
Arguments Ok {A} a.
Arguments Throw {A} e.

#[global] Instance result_ret : MRet result := @Ok.
#[global] Instance result_bind : MBind result := λ A B f r,
  match r with
  | Ok a => f a
  | Throw e => Throw e
  end.

(** [v.k]: reading a property of [null] or [undefined] throws; an object
    yields the property or [undefined] (none of the names the code reads is
    inherited from [Object.prototype]); arrays and primitives have none of
    the properties the validators name ([length] is only read behind
    [Array.isArray], see [elements]). *)
Definition prop (v : value) (k : string) : result value :=
  match v with
  | VUndefined | VNull => Throw (TypeError v k)
  | VObj o => Ok (default VUndefined (o !! k))
  | _ => Ok VUndefined
  end.

(** [arr.map(f)]: left to right, the first throw aborts the whole map. *)
Fixpoint Array_map (f : value → result value) (arr : list value) : result (list value) :=
  match arr with
  | [] => Ok []
  | x :: rest =>
      y ← f x;
      ys ← Array_map f rest;
      Ok (y :: ys)
  end.

(** [if (cond) obj.k = v;] *)
Definition set_if (cond : bool) (k : string) (v : value)
    (obj : gmap string value) : gmap string value :=
  if cond then <[k := v]> obj else obj.

Definition not_object (v : value) : bool :=
  negb (String.eqb (typeof v) "object") || negb (truthy v).

Definition is_string (v : value) : bool := String.eqb (typeof v) "string".
Definition is_number (v : value) : bool := String.eqb (typeof v) "number".
Definition is_object (v : value) : bool := String.eqb (typeof v) "object".

(** [v >= z] and [v <= z] against an integer literal, for a [v] the code has
    just found to be a number. *)
Definition ge_lit (v : value) (z : Z) : bool :=
  match v with VNum n => num_le (num_of_Z z) n | _ => false end.
Definition le_lit (v : value) (z : Z) : bool :=
  match v with VNum n => num_le n (num_of_Z z) | _ => false end.

(** [throw new McpError(ErrorCode.InvalidParams, msg)] *)
Definition invalid {A} (msg : string) : result A :=
  Throw (McpError InvalidParams msg).

(** ** Validators *)

(** [validatePaymentToken] *)
Definition validatePaymentToken (args : value) : result value :=
  if not_object args then invalid "Invalid payment token data"
  else
    customer ← prop args "customer";
    payment_source ← prop args "payment_source";
    if negb (truthy customer) || negb (is_object customer)
       || negb (truthy payment_source) || negb (is_object payment_source)
    then invalid "Missing required payment token fields"
    else
      customer_id ← prop customer "id";
      if negb (is_string customer_id) then invalid "Invalid customer ID"
      else
        let validatedCustomer : gmap string value := {[ "id" := customer_id ]} in
        let validatedSource : gmap string value := ∅ in
        email_address ← prop customer "email_address";
        let validatedCustomer :=
          set_if (is_string email_address) "email_address" email_address
                 validatedCustomer in
        card ← prop payment_source "card";
        validatedSource ←
          (if truthy card && is_object card then
             name ← prop card "name";
             number ← prop card "number";
             expiry ← prop card "expiry";
             security_code ← prop card "security_code";
             Ok (set_if (is_string name && is_string number
                         && is_string expiry && is_string security_code)
                        "card"
                        (VObj {[ "name" := name; "number" := number;
                                 "expiry" := expiry;
                                 "security_code" := security_code ]})
                        validatedSource)
           else Ok validatedSource);
        paypal ← prop payment_source "paypal";
        validatedSource ←
          (if truthy paypal && is_object paypal then
             paypal_email ← prop paypal "email_address";
             if is_string paypal_email then
               account_id ← prop paypal "account_id";
               Ok (<["paypal" :=
                       VObj (set_if (is_string account_id) "account_id" account_id
                                    {[ "email_address" := paypal_email ]})]>
                     validatedSource)
             else Ok validatedSource
           else Ok validatedSource);
        Ok (VObj {[ "customer" := VObj validatedCustomer;
                    "payment_source" := VObj validatedSource ]}).

(** The callback of [payment.transactions.map] in [validatePayment]. *)
Definition validatePayment_transaction (transaction : value) : result value :=
  amount ← prop transaction "amount";
  if negb (truthy amount) || negb (is_object amount)
  then invalid "Invalid transaction amount"
  else
    total ← prop amount "total";
    currency ← prop amount "currency";
    if negb (is_string total) || negb (is_string currency)
    then invalid "Invalid amount fields"
    else
      let validatedTransaction : gmap string value :=
        {[ "amount" := VObj {[ "total" := total; "currency" := currency ]} ]} in
      description ← prop transaction "description";
      Ok (VObj (set_if (is_string description) "description" description
                       validatedTransaction)).

(** [validatePayment]; [payer.funding_instruments] is read and stored as it
    is (the source only casts it). *)
Definition validatePayment (args : value) : result value :=
  if not_object args then invalid "Invalid payment data"
  else
    intent ← prop args "intent";
    payer ← prop args "payer";
    transactions ← prop args "transactions";
    if negb (is_string intent)
       || negb (truthy payer) || negb (is_object payer)
       || negb (isArray transactions)
       || (length (elements transactions) =? 0)%nat
    then invalid "Missing required payment fields"
    else
      payment_method ← prop payer "payment_method";
      if negb (is_string payment_method) then invalid "Invalid payment method"
      else
        validated ← Array_map validatePayment_transaction (elements transactions);
        funding_instruments ← prop payer "funding_instruments";
        Ok (VObj {[ "intent" := intent;
                    "payer" := VObj {[ "payment_method" := payment_method;
                                       "funding_instruments" := funding_instruments ]};
                    "transactions" := VArr validated ]}).

(** The callback of [payout.items.map] in [validatePayout]. *)
Definition validatePayout_item (item : value) : result value :=
  recipient_type ← prop item "recipient_type";
  amount ← prop item "amount";
  receiver ← prop item "receiver";
  if negb (is_string recipient_type)
     || negb (truthy amount) || negb (is_object amount)
     || negb (is_string receiver)
  then invalid "Invalid payout item"
  else
    amount_value ← prop amount "value";
    currency ← prop amount "currency";
    if negb (is_string amount_value) || negb (is_string currency)
    then invalid "Invalid amount fields"
    else
      let validatedItem : gmap string value :=
        {[ "recipient_type" := recipient_type;
           "amount" := VObj {[ "value" := amount_value; "currency" := currency ]};
           "receiver" := receiver ]} in
      note ← prop item "note";
      let validatedItem := set_if (is_string note) "note" note validatedItem in
      sender_item_id ← prop item "sender_item_id";
      let validatedItem :=
        set_if (is_string sender_item_id) "sender_item_id" sender_item_id
               validatedItem in
      Ok (VObj validatedItem).

(** [validatePayout] *)
Definition validatePayout (args : value) : result value :=
  if not_object args then invalid "Invalid payout data"
  else
    sender_batch_header ← prop args "sender_batch_header";
    items ← prop args "items";
    if negb (truthy sender_batch_header) || negb (is_object sender_batch_header)
       || negb (isArray items) || (length (elements items) =? 0)%nat
    then invalid "Missing required payout fields"
    else
      sender_batch_id ← prop sender_batch_header "sender_batch_id";
      if negb (is_string sender_batch_id) then invalid "Invalid sender batch ID"
      else
        validated ← Array_map validatePayout_item (elements items);
        email_subject ← prop sender_batch_header "email_subject";
        recipient_type ← prop sender_batch_header "recipient_type";
        Ok (VObj {[ "sender_batch_header" :=
                      VObj {[ "sender_batch_id" := sender_batch_id;
                              "email_subject" :=
                                (if is_string email_subject then email_subject
                                 else VUndefined);
                              "recipient_type" :=
                                (if is_string recipient_type then recipient_type
                                 else VUndefined) ]};
                    "items" := VArr validated ]}).

(** The callback of [payout.referenced_payouts.map]. *)
Definition validateReferencedPayout_ref (ref : value) : result value :=
  reference_id ← prop ref "reference_id";
  reference_type ← prop ref "reference_type";
  payout_amount ← prop ref "payout_amount";
  payout_destination ← prop ref "payout_destination";
  if negb (is_string reference_id) || negb (is_string reference_type)
     || negb (truthy payout_amount) || negb (is_object payout_amount)
     || negb (is_string payout_destination)
  then invalid "Invalid referenced payout"
  else
    currency_code ← prop payout_amount "currency_code";
    amount_value ← prop payout_amount "value";
    if negb (is_string currency_code) || negb (is_string amount_value)
    then invalid "Invalid amount fields"
    else
      item_id ← prop ref "item_id";
      processing_state ← prop ref "processing_state";
      status ←
        (if is_object processing_state then
           s ← prop processing_state "status";
           Ok (if truthy s then s else VStr "")
         else Ok (VStr ""));
      reason ←
        (if is_object processing_state then prop processing_state "reason"
         else Ok VUndefined);
      Ok (VObj {[ "item_id" := (if is_string item_id then item_id else VStr "");
                  "processing_state" :=
                    VObj {[ "status" := status; "reason" := reason ]};
                  "reference_id" := reference_id;
                  "reference_type" := reference_type;
                  "payout_amount" :=
                    VObj {[ "currency_code" := currency_code;
                            "value" := amount_value ]};
                  "payout_destination" := payout_destination ]}).

(** [validateReferencedPayout] *)
Definition validateReferencedPayout (args : value) : result value :=
  if not_object args then invalid "Invalid referenced payout data"
  else
    referenced_payouts ← prop args "referenced_payouts";
    if negb (isArray referenced_payouts)
       || (length (elements referenced_payouts) =? 0)%nat
    then invalid "Missing referenced payouts"
    else
      validated ← Array_map validateReferencedPayout_ref (elements referenced_payouts);
      Ok (VObj {[ "referenced_payouts" := VArr validated ]}).

(** The callback of [order.purchase_units.map]. *)
Definition validatePayPalOrder_unit (unit : value) : result value :=
  amount ← prop unit "amount";
  if negb (truthy amount) || negb (is_object amount)
  then invalid "Invalid purchase unit amount"
  else
    currency_code ← prop amount "currency_code";
    amount_value ← prop amount "value";
    if negb (is_string currency_code) || negb (is_string amount_value)
    then invalid "Invalid amount fields"
    else
      let validatedUnit : gmap string value :=
        {[ "amount" := VObj {[ "currency_code" := currency_code;
                               "value" := amount_value ]} ]} in
      description ← prop unit "description";
      let validatedUnit :=
        set_if (is_string description) "description" description validatedUnit in
      reference_id ← prop unit "reference_id";
      let validatedUnit :=
        set_if (is_string reference_id) "reference_id" reference_id validatedUnit in
      Ok (VObj validatedUnit).

Definition order_intents : list string := ["CAPTURE"; "AUTHORIZE"].

(** [validatePayPalOrder] *)
Definition validatePayPalOrder (args : value) : result value :=
  if not_object args then invalid "Invalid order data"
  else
    intent ← prop args "intent";
    purchase_units ← prop args "purchase_units";
    if negb (includes order_intents intent)
       || negb (isArray purchase_units)
       || (length (elements purchase_units) =? 0)%nat
    then invalid "Missing required order fields"
    else
      validated ← Array_map validatePayPalOrder_unit (elements purchase_units);
      Ok (VObj {[ "intent" := intent; "purchase_units" := VArr validated ]}).


(** The callback of [ownerObj.names.map]. *)
Definition validatePartnerReferral_name (name : value) : result value :=
  given_name ← prop name "given_name";
  surname ← prop name "surname";
  if negb (is_string given_name) || negb (is_string surname)
  then invalid "Invalid name fields"
  else Ok (VObj {[ "given_name" := given_name; "surname" := surname ]}).

(** The callback of [referral.individual_owners.map]. *)
Definition validatePartnerReferral_owner (owner : value) : result value :=
  names ← prop owner "names";
  if negb (isArray names) || (length (elements names) =? 0)%nat
  then invalid "Invalid owner names"
  else
    validated ← Array_map validatePartnerReferral_name (elements names);
    Ok (VObj {[ "names" := VArr validated ]}).

(** [validatePartnerReferral] *)
Definition validatePartnerReferral (args : value) : result value :=
  if not_object args then invalid "Invalid partner referral data"
  else
    individual_owners ← prop args "individual_owners";
    business_entity ← prop args "business_entity";
    email ← prop args "email";
    if negb (isArray individual_owners)
       || negb (truthy business_entity)
       || negb (is_string email)
    then invalid "Missing required referral fields"
    else
      validated ← Array_map validatePartnerReferral_owner (elements individual_owners);
      business_type ← prop business_entity "business_type";
      business_name ← prop business_entity "business_name";
      if negb (truthy business_type) || negb (is_string business_name)
      then invalid "Invalid business entity"
      else
        type ← prop business_type "type";
        if negb (is_string type) then invalid "Invalid business type"
        else
          Ok (VObj {[ "individual_owners" := VArr validated;
                      "business_entity" :=
                        VObj {[ "business_type" := VObj {[ "type" := type ]};
                                "business_name" := business_name ]};
                      "email" := email ]}).

(** [validateWebProfile] *)
Definition validateWebProfile (args : value) : result value :=
  if not_object args then invalid "Invalid web profile data"
  else
    name ← prop args "name";
    if negb (is_string name) then invalid "Missing required profile name"
    else
      presentation ← prop args "presentation";
      webProfile_presentation ←
        (if truthy presentation && is_object presentation then
           brand_name ← prop presentation "brand_name";
           logo_image ← prop presentation "logo_image";
           locale_code ← prop presentation "locale_code";
           Ok (set_if (is_string locale_code) "locale_code" locale_code
                (set_if (is_string logo_image) "logo_image" logo_image
                  (set_if (is_string brand_name) "brand_name" brand_name ∅)))
         else Ok ∅);
      input_fields ← prop args "input_fields";
      webProfile_input_fields ←
        (if truthy input_fields && is_object input_fields then
           no_shipping ← prop input_fields "no_shipping";
           address_override ← prop input_fields "address_override";
           Ok (set_if (is_number address_override) "address_override" address_override
                (set_if (is_number no_shipping) "no_shipping" no_shipping ∅))
         else Ok ∅);
      flow_config ← prop args "flow_config";
      webProfile_flow_config ←
        (if truthy flow_config && is_object flow_config then
           landing_page_type ← prop flow_config "landing_page_type";
           bank_txn_pending_url ← prop flow_config "bank_txn_pending_url";
           Ok (set_if (is_string bank_txn_pending_url) "bank_txn_pending_url"
                      bank_txn_pending_url
                (set_if (is_string landing_page_type) "landing_page_type"
                        landing_page_type ∅))
         else Ok ∅);
      Ok (VObj {[ "name" := name;
                  "presentation" := VObj webProfile_presentation;
                  "input_fields" := VObj webProfile_input_fields;
                  "flow_config" := VObj webProfile_flow_config ]}).

Definition product_types : list string := ["PHYSICAL"; "DIGITAL"; "SERVICE"].

(** [validatePayPalProduct] *)
Definition validatePayPalProduct (args : value) : result value :=
  if not_object args then invalid "Invalid product data"
  else
    name ← prop args "name";
    description ← prop args "description";
    type ← prop args "type";
    category ← prop args "category";
    if negb (is_string name)
       || negb (is_string description)
       || negb (includes product_types type)
       || negb (is_string category)
    then invalid "Missing required product fields"
    else
      let validatedProduct : gmap string value :=
        {[ "name" := name; "description" := description;
           "type" := type; "category" := category ]} in
      image_url ← prop args "image_url";
      let validatedProduct :=
        set_if (is_string image_url) "image_url" image_url validatedProduct in
      home_url ← prop args "home_url";
      let validatedProduct :=
        set_if (is_string home_url) "home_url" home_url validatedProduct in
      Ok (VObj validatedProduct).

(** [validatePaginationParams] *)
Definition validatePaginationParams (args : value) : result value :=
  if not_object args then Ok (VObj ∅)
  else
    let validated : gmap string value := ∅ in
    page_size ← prop args "page_size";
    let validated :=
      set_if (is_number page_size && ge_lit page_size 1 && le_lit page_size 100)
             "page_size" page_size validated in
    page ← prop args "page";
    let validated :=
      set_if (is_number page && ge_lit page 1) "page" page validated in
    Ok (VObj validated).

(** [validateDisputeParams] *)
Definition validateDisputeParams (args : value) : result value :=
  if not_object args then Throw (McpError InvalidParams "Invalid dispute ID")
  else
    dispute_id ← prop args "dispute_id";
    if negb (is_string dispute_id)
    then Throw (McpError InvalidParams "Invalid dispute ID")
    else Ok (VObj {[ "dispute_id" := dispute_id ]}).

(** [validateTokenParams] *)
Definition validateTokenParams (args : value) : result value :=
  if not_object args then Throw (McpError InvalidParams "Invalid access token")
  else
    access_token ← prop args "access_token";
    if negb (is_string access_token)
    then Throw (McpError InvalidParams "Invalid access token")
    else Ok (VObj {[ "access_token" := access_token ]}).

(** The callback of [items.map] in [validatePayPalInvoice]. *)
Definition validatePayPalInvoice_item (item : value) : result value :=
  name ← prop item "name";
  quantity ← prop item "quantity";
  unit_amount ← prop item "unit_amount";
  if negb (is_string name) || negb (is_string quantity)
     || negb (truthy unit_amount) || negb (is_object unit_amount)
  then invalid "Invalid invoice item"
  else
    currency_code ← prop unit_amount "currency_code";
    amount_value ← prop unit_amount "value";
    if negb (is_string currency_code) || negb (is_string amount_value)
    then invalid "Invalid item amount"
    else
      Ok (VObj {[ "name" := name; "quantity" := quantity;
                  "unit_amount" :=
                    VObj {[ "currency_code" := currency_code;
                            "value" := amount_value ]} ]}).

(** [validatePayPalInvoice]; [invoice.primary_recipients[0]] is the head of
    an array the guard has found non-empty. *)
Definition validatePayPalInvoice (args : value) : result value :=
  if not_object args then invalid "Invalid invoice data"
  else
    detail ← prop args "detail";
    primary_recipients ← prop args "primary_recipients";
    items ← prop args "items";
    if negb (truthy detail) || negb (is_object detail)
       || negb (isArray primary_recipients)
       || (length (elements primary_recipients) =? 0)%nat
       || negb (isArray items) || (length (elements items) =? 0)%nat
    then invalid "Missing required invoice fields"
    else
      invoice_number ← prop detail "invoice_number";
      reference ← prop detail "reference";
      currency_code ← prop detail "currency_code";
      if negb (is_string invoice_number) || negb (is_string reference)
         || negb (is_string currency_code)
      then invalid "Invalid invoice detail fields"
      else
        let recipient := hd VUndefined (elements primary_recipients) in
        billing_info ← prop recipient "billing_info";
        if negb (truthy billing_info) || negb (is_object billing_info)
        then invalid "Invalid recipient information"
        else
          email_address ← prop billing_info "email_address";
          if negb (is_string email_address)
          then invalid "Invalid recipient information"
          else
            validatedItems ← Array_map validatePayPalInvoice_item (elements items);
            Ok (VObj {[ "detail" :=
                          VObj {[ "invoice_number" := invoice_number;
                                  "reference" := reference;
                                  "currency_code" := currency_code ]};
                        "primary_recipients" :=
                          VArr [ VObj {[ "billing_info" :=
                                   VObj {[ "email_address" := email_address ]} ]} ];
                        "items" := VArr validatedItems ]}).

(** ** Upstream calls *)

Inductive Method := GET | POST.

Inductive Authorization :=
| Basic (client_id client_secret : string)
| Bearer (token : string).

Inductive Body :=
| NoBody
| FormBody (form : string)
| JsonBody (payload : value).

(** One HTTP request as handed to axios; [query] holds the
    [URLSearchParams] appended to the URL of [list_products]. *)
Record Request := {
  method : Method;
  url : string;
  query : list (string * string);
  content_type : string;
  authorization : Authorization;
  body : Body
}.

(** How an axios call ends: a response whose [data] is the body, or a
    rejected promise carrying an [AxiosError]. *)
Inductive reply :=
| Response (data : value)
| Failed (e : AxiosError).

(** What the server takes from its surroundings: the two secrets of the
    environment, the remote API (its reply may depend on everything sent so
    far), and the engine's and the SDK's string renderings. *)
Record Runtime := {
  PAYPAL_CLIENT_ID : string;
  PAYPAL_CLIENT_SECRET : string;
  axios : list Request → Request → reply;
  Value_toString : value → string;
  JSON_stringify : value → string;
  McpError_message : ErrorCode → string → string;
  TypeError_message : value → string → string
}.

(** The mutable state of a [PayPalServer] together with the log of the
    requests it has sent, oldest first. *)
Record World := {
  accessToken : value;
  sent : list Request
}.

(** A fresh process: [private accessToken: string | null = null]. *)
Definition initial : World := {| accessToken := VNull; sent := [] |}.

(** The response envelope of a tool call. *)
Record Envelope := {
  text : string;
  isError : bool
}.

(** Code that reads and writes the server state, sends requests and may
    throw. *)
Definition M (A : Type) : Type := World → result A * World.

#[global] Instance M_ret : MRet M := λ A a w, (Ok a, w).
#[global] Instance M_bind : MBind M := λ A B f m w,
  match m w with
  | (Ok a, w') => f a w'
  | (Throw e, w') => (Throw e, w')
  end.

Definition throw {A} (e : exn) : M A := λ w, (Throw e, w).

(** Running pure code such as a validator. *)
Definition lift {A} (r : result A) : M A := λ w, (r, w).

(** [try { body } catch (error) { handler }] *)
Definition try_catch {A} (body : M A) (handler : exn → M A) : M A := λ w,
  match body w with
  | (Ok a, w') => (Ok a, w')
  | (Throw e, w') => handler e w'
  end.

Definition set_accessToken (v : value) : M () := λ w,
  (Ok (), {| accessToken := v; sent := sent w |}).

Definition get_accessToken : M value := λ w, (Ok (accessToken w), w).

(** [a || b] *)
Definition or_else (a b : value) : value := if truthy a then a else b.

Definition token_url : string := "https://api-m.sandbox.paypal.com/v1/oauth2/token".
Definition api : string := "https://api-m.sandbox.paypal.com".

(** The names advertised by the [ListToolsRequestSchema] handler. *)
Definition registry : list string :=
  [ "create_payment_token"; "create_payment"; "create_payout";
    "create_referenced_payout"; "create_order"; "create_partner_referral";
    "create_web_profile"; "create_product"; "list_products"; "get_dispute";
    "get_userinfo"; "create_invoice" ].

Section Server.
Context (rt : Runtime).

(** [await axios...]: the request is logged, then answered. *)
Definition send (req : Request) : M value := λ w,
  let w' := {| accessToken := accessToken w; sent := sent w ++ [req] |} in
  match axios rt (sent w) req with
  | Response data => (Ok data, w')
  | Failed e => (Throw (Axios e), w')
  end.

(** A value inside a template literal. *)
Definition template (v : value) : string :=
  match v with VStr s => s | _ => Value_toString rt v end.

(** [v?.toString()] *)
Definition optional_toString (v : value) : value :=
  match v with
  | VUndefined | VNull => VUndefined
  | VStr s => VStr s
  | _ => VStr (Value_toString rt v)
  end.

Definition token_request : Request :=
  {| method := POST; url := token_url; query := [];
     content_type := "application/x-www-form-urlencoded";
     authorization := Basic (PAYPAL_CLIENT_ID rt) (PAYPAL_CLIENT_SECRET rt);
     body := FormBody "grant_type=client_credentials" |}.

(** [getAccessToken] *)
Definition getAccessToken : M value :=
  cached ← get_accessToken;
  if truthy cached then mret cached
  else
    data ← send token_request;
    access_token ← lift (prop data "access_token");
    set_accessToken access_token;;
    if negb (truthy access_token)
    then throw (Error "Failed to obtain access token")
    else mret access_token.

Definition axios_post (path : string) (payload : value) (headers : Authorization)
    : M value :=
  send {| method := POST; url := api ++ path; query := [];
          content_type := "application/json";
          authorization := headers; body := JsonBody payload |}.

Definition axios_get (path : string) (params : list (string * string))
    (headers : Authorization) : M value :=
  send {| method := GET; url := api ++ path; query := params;
          content_type := "application/json";
          authorization := headers; body := NoBody |}.

(** [{ content: [{ type: 'text', text: JSON.stringify(data, null, 2) }] }] *)
Definition content (data : value) : Envelope :=
  {| text := JSON_stringify rt data; isError := false |}.

(** A [case] that validates, posts the validated payload and wraps the
    response. *)
Definition post_tool (validate : value → result value) (path : string)
    (arguments : value) (headers : Authorization) : M Envelope :=
  args ← lift (validate arguments);
  data ← axios_post path args headers;
  mret (content data).

(** [case 'list_products'] *)
Definition case_list_products (arguments : value) (headers : Authorization)
    : M Envelope :=
  args ← lift (validatePaginationParams arguments);
  page_size ← lift (prop args "page_size");
  page ← lift (prop args "page");
  let params :=
    [ ("page_size", template (or_else (optional_toString page_size) (VStr "10")));
      ("page", template (or_else (optional_toString page) (VStr "1"))) ] in
  data ← axios_get "/v1/catalogs/products" params headers;
  mret (content data).

(** [case 'get_dispute'] *)
Definition case_get_dispute (arguments : value) (headers : Authorization)
    : M Envelope :=
  args ← lift (validateDisputeParams arguments);
  dispute_id ← lift (prop args "dispute_id");
  data ← axios_get ("/v1/customer/disputes/" ++ template dispute_id) [] headers;
  mret (content data).

(** [case 'get_userinfo']: the bearer token is the caller's. *)
Definition case_get_userinfo (arguments : value) : M Envelope :=
  args ← lift (validateTokenParams arguments);
  access_token ← lift (prop args "access_token");
  data ← axios_get "/v1/identity/oauth2/userinfo" []
                   (Bearer (template access_token));
  mret (content data).

(** [case 'create_invoice'] *)
Definition case_create_invoice (arguments : value) (headers : Authorization)
    : M Envelope :=
  args ← lift (validatePayPalInvoice arguments);
  detail ← lift (prop args "detail");
  invoice_number ← lift (prop detail "invoice_number");
  reference ← lift (prop detail "reference");
  currency_code ← lift (prop detail "currency_code");
  primary_recipients ← lift (prop args "primary_recipients");
  billing_info ← lift (prop (hd VUndefined (elements primary_recipients))
                            "billing_info");
  email_address ← lift (prop billing_info "email_address");
  items ← lift (prop args "items");
  let invoiceData :=
    VObj {[ "detail" := VObj {[ "invoice_number" := invoice_number;
                                 "reference" := reference;
                                 "currency_code" := currency_code ]};
            "primary_recipients" :=
              VArr [ VObj {[ "billing_info" :=
                       VObj {[ "email_address" := email_address ]} ]} ];
            "items" := items ]} in
  data ← axios_post "/v2/invoicing/invoices" invoiceData headers;
  mret (content data).

(** The [switch (request.params.name)] inside the [try]. *)
Definition tool_switch (name : string) (arguments : value)
    (headers : Authorization) : M Envelope :=
  if String.eqb name "create_payment_token" then
    post_tool validatePaymentToken "/v3/payment-tokens" arguments headers
  else if String.eqb name "create_payment" then
    post_tool validatePayment "/v2/payments/payment" arguments headers
  else if String.eqb name "create_payout" then
    post_tool validatePayout "/v1/payments/payouts" arguments headers
  else if String.eqb name "create_referenced_payout" then
    post_tool validateReferencedPayout "/v1/payments/referenced-payouts"
              arguments headers
  else if String.eqb name "create_order" then
    post_tool validatePayPalOrder "/v2/checkout/orders" arguments headers
  else if String.eqb name "create_partner_referral" then
    post_tool validatePartnerReferral "/v2/customer/partner-referrals"
              arguments headers
  else if String.eqb name "create_web_profile" then
    post_tool validateWebProfile "/v1/payment-experience/web-profiles"
              arguments headers
  else if String.eqb name "create_product" then
    post_tool validatePayPalProduct "/v1/catalogs/products" arguments headers
  else if String.eqb name "list_products" then
    case_list_products arguments headers
  else if String.eqb name "get_dispute" then
    case_get_dispute arguments headers
  else if String.eqb name "get_userinfo" then
    case_get_userinfo arguments
  else if String.eqb name "create_invoice" then
    case_create_invoice arguments headers
  else
    throw (McpError MethodNotFound ("Unknown tool: " ++ name)).

(** [err.message] *)
Definition exn_message (error : exn) : string :=
  match error with
  | McpError code message => McpError_message rt code message
  | Error message => message
  | TypeError base property => TypeError_message rt base property
  | Axios e => axios_message e
  end.

(** [s || dflt] on strings. *)
Definition nonempty_or (s dflt : string) : string :=
  if String.eqb s "" then dflt else s.

(** The [catch (error)] block of the call-tool handler;
    [isAxiosError(error)] holds of a failed axios call and of nothing
    else that can be thrown here. *)
Definition tool_catch (error : exn) : M Envelope :=
  match error with
  | Axios e =>
      mret {| text := "PayPal API error: "
                      ++ nonempty_or (default "" (response_data_message e))
                                     (axios_message e);
              isError := true |}
  | _ =>
      throw (McpError InternalError
               (nonempty_or (exn_message error) "An unexpected error occurred"))
  end.

(** The [CallToolRequestSchema] handler; an absent [arguments] is
    [VUndefined]. *)
Definition callTool (name : string) (arguments : value) : M Envelope :=
  if negb (truthy arguments)
  then throw (McpError InvalidParams "Arguments are required")
  else
    token ← getAccessToken;
    let headers := Bearer (template token) in
    try_catch (tool_switch name arguments headers) tool_catch.

End Server.

(** ** The validators and what they read

    Each tool with the validator its [case] runs and the top-level
    properties of [args] that the validator's body reads. *)
Definition validators : list (string * (value → result value) * list string) :=
  [ ("create_payment_token", validatePaymentToken, ["customer"; "payment_source"]);
    ("create_payment", validatePayment, ["intent"; "payer"; "transactions"]);
    ("create_payout", validatePayout, ["sender_batch_header"; "items"]);
    ("create_referenced_payout", validateReferencedPayout, ["referenced_payouts"]);
    ("create_order", validatePayPalOrder, ["intent"; "purchase_units"]);
    ("create_partner_referral", validatePartnerReferral,
       ["individual_owners"; "business_entity"; "email"]);
    ("create_web_profile", validateWebProfile,
       ["name"; "presentation"; "input_fields"; "flow_config"]);
    ("create_product", validatePayPalProduct,
       ["name"; "description"; "type"; "category"; "image_url"; "home_url"]);
    ("list_products", validatePaginationParams, ["page_size"; "page"]);
    ("get_dispute", validateDisputeParams, ["dispute_id"]);
    ("get_userinfo", validateTokenParams, ["access_token"]);
    ("create_invoice", validatePayPalInvoice,
       ["detail"; "primary_recipients"; "items"]) ].


(** [v?.k1?.k2...]: the value at the end of a path of properties,
    [undefined] as soon as a step is missing. *)
Fixpoint read (v : value) (path : list string) : value :=
  match path with
  | [] => v
  | k :: rest =>
      match v with
      | VObj o => read (default VUndefined (o !! k)) rest
      | _ => VUndefined
      end
  end.

(** The fields a validator (or the callback of one of its maps) reads, each
    with its path from the argument of the function.  Left out are the five
    fields for which the code writes a fallback: [item_id],
    [processing_state] and its [status] in a referenced payout, and the
    three sections of a web profile. *)
Definition recognized_fields : list ((value → result value) * list string) :=
  [ (validatePaymentToken, ["customer"]);
    (validatePaymentToken, ["customer"; "id"]);
    (validatePaymentToken, ["customer"; "email_address"]);
    (validatePaymentToken, ["payment_source"]);
    (validatePaymentToken, ["payment_source"; "card"]);
    (validatePaymentToken, ["payment_source"; "card"; "name"]);
    (validatePaymentToken, ["payment_source"; "card"; "number"]);
    (validatePaymentToken, ["payment_source"; "card"; "expiry"]);
    (validatePaymentToken, ["payment_source"; "card"; "security_code"]);
    (validatePaymentToken, ["payment_source"; "paypal"]);
    (validatePaymentToken, ["payment_source"; "paypal"; "email_address"]);
    (validatePaymentToken, ["payment_source"; "paypal"; "account_id"]);
    (validatePayment, ["intent"]);
    (validatePayment, ["payer"]);
    (validatePayment, ["payer"; "payment_method"]);
    (validatePayment, ["payer"; "funding_instruments"]);
    (validatePayment, ["transactions"]);
    (validatePayment_transaction, ["amount"]);
    (validatePayment_transaction, ["amount"; "total"]);
    (validatePayment_transaction, ["amount"; "currency"]);
    (validatePayment_transaction, ["description"]);
    (validatePayout, ["sender_batch_header"]);
    (validatePayout, ["sender_batch_header"; "sender_batch_id"]);
    (validatePayout, ["sender_batch_header"; "email_subject"]);
    (validatePayout, ["sender_batch_header"; "recipient_type"]);
    (validatePayout, ["items"]);
    (validatePayout_item, ["recipient_type"]);
    (validatePayout_item, ["amount"]);
    (validatePayout_item, ["amount"; "value"]);
    (validatePayout_item, ["amount"; "currency"]);
    (validatePayout_item, ["receiver"]);
    (validatePayout_item, ["note"]);
    (validatePayout_item, ["sender_item_id"]);
    (validateReferencedPayout, ["referenced_payouts"]);
    (validateReferencedPayout_ref, ["reference_id"]);
    (validateReferencedPayout_ref, ["reference_type"]);
    (validateReferencedPayout_ref, ["payout_amount"]);
    (validateReferencedPayout_ref, ["payout_amount"; "currency_code"]);
    (validateReferencedPayout_ref, ["payout_amount"; "value"]);
    (validateReferencedPayout_ref, ["payout_destination"]);
    (validateReferencedPayout_ref, ["processing_state"; "reason"]);
    (validatePayPalOrder, ["intent"]);
    (validatePayPalOrder, ["purchase_units"]);
    (validatePayPalOrder_unit, ["amount"]);
    (validatePayPalOrder_unit, ["amount"; "currency_code"]);
    (validatePayPalOrder_unit, ["amount"; "value"]);
    (validatePayPalOrder_unit, ["description"]);
    (validatePayPalOrder_unit, ["reference_id"]);
    (validatePartnerReferral, ["individual_owners"]);
    (validatePartnerReferral, ["business_entity"]);
    (validatePartnerReferral, ["business_entity"; "business_type"]);
    (validatePartnerReferral, ["business_entity"; "business_type"; "type"]);
    (validatePartnerReferral, ["business_entity"; "business_name"]);
    (validatePartnerReferral, ["email"]);
    (validatePartnerReferral_owner, ["names"]);
    (validatePartnerReferral_name, ["given_name"]);
    (validatePartnerReferral_name, ["surname"]);
    (validateWebProfile, ["name"]);
    (validateWebProfile, ["presentation"; "brand_name"]);
    (validateWebProfile, ["presentation"; "logo_image"]);
    (validateWebProfile, ["presentation"; "locale_code"]);
    (validateWebProfile, ["input_fields"; "no_shipping"]);
    (validateWebProfile, ["input_fields"; "address_override"]);
    (validateWebProfile, ["flow_config"; "landing_page_type"]);
    (validateWebProfile, ["flow_config"; "bank_txn_pending_url"]);
    (validatePayPalProduct, ["name"]);
    (validatePayPalProduct, ["description"]);
    (validatePayPalProduct, ["type"]);
    (validatePayPalProduct, ["category"]);
    (validatePayPalProduct, ["image_url"]);
    (validatePayPalProduct, ["home_url"]);
    (validatePaginationParams, ["page_size"]);
    (validatePaginationParams, ["page"]);
    (validateDisputeParams, ["dispute_id"]);
    (validateTokenParams, ["access_token"]);
    (validatePayPalInvoice, ["detail"]);
    (validatePayPalInvoice, ["detail"; "invoice_number"]);
    (validatePayPalInvoice, ["detail"; "reference"]);
    (validatePayPalInvoice, ["detail"; "currency_code"]);
    (validatePayPalInvoice, ["primary_recipients"]);
    (validatePayPalInvoice, ["items"]);
    (validatePayPalInvoice_item, ["name"]);
    (validatePayPalInvoice_item, ["quantity"]);
    (validatePayPalInvoice_item, ["unit_amount"]);
    (validatePayPalInvoice_item, ["unit_amount"; "currency_code"]);
    (validatePayPalInvoice_item, ["unit_amount"; "value"]) ].

(** ** Processes

    A process handles tool calls one after the other; [run] gives the state
    it is left in.  [fetches] counts the requests to the token endpoint in
    the log. *)
Fixpoint run (rt : Runtime) (calls : list (string * value)) (w : World) : World :=
  match calls with
  | [] => w
  | (name, arguments) :: rest => run rt rest (callTool rt name arguments w).2
  end.

Definition is_token_fetch (req : Request) : bool := String.eqb (url req) token_url.

Definition fetches (w : World) : nat := length (filter is_token_fetch (sent w)).

(** Code that leaves the cached credential alone and sends nothing to the
    token endpoint. *)
Definition keeps_credential {A} (m : M A) : Prop :=
  ∀ w, accessToken (m w).2 = accessToken w ∧ fetches (m w).2 = fetches w.

(** ** Sample surroundings

    Two remote APIs for closed examples: one that answers every request with
    a token response, one that refuses every connection. *)

Definition runtime_with (net : list Request → Request → reply) : Runtime :=
  {| PAYPAL_CLIENT_ID := "client-id";
     PAYPAL_CLIENT_SECRET := "client-secret";
     axios := net;
     Value_toString := λ _, "[value]";
     JSON_stringify := λ _, "{}";
     McpError_message := λ _ message, message;
     TypeError_message := λ _ property, property |}.

Definition online : Runtime :=
  runtime_with (λ _ _, Response (VObj {[ "access_token" := VStr "A21AAK" ]})).

Definition offline : Runtime :=
  runtime_with (λ _ _, Failed {| response_data_message := None;
                                 axios_message := "connect ECONNREFUSED" |}).

Definition usd_10 : value :=
  VObj {[ "amount" := VObj {[ "currency_code" := VStr "USD";
                               "value" := VStr "10.00" ]} ]}.

(** The specification's rejected order. *)
Definition refund_order : value :=
  VObj {[ "intent" := VStr "REFUND"; "purchase_units" := VArr [usd_10] ]}.

(** A process that already holds a credential. *)
Definition with_credential : World :=
  {| accessToken := VStr "A21AAK"; sent := [] |}.

(** The state a fresh process is in after its first call of the token
    provider, against each of the two remote APIs. *)
Definition after_first_fetch : World := (getAccessToken online initial).2.
Definition after_failed_fetch : World := (getAccessToken offline initial).2.

(** A payment whose [funding_instruments] is a string, not an array. *)
Definition payment_with_card_number : value :=
  VObj {[ "intent" := VStr "sale";
          "payer" := VObj {[ "payment_method" := VStr "credit_card";
                             "funding_instruments" := VStr "4111111111111111" ]};
          "transactions" :=
            VArr [ VObj {[ "amount" := VObj {[ "total" := VStr "10.00";
                                                "currency" := VStr "USD" ]} ]} ] ]}.

(** A payout item whose [note] is a number, not a string. *)
Definition payout_item_with_numeric_note : value :=
  VObj {[ "recipient_type" := VStr "EMAIL";
          "amount" := VObj {[ "value" := VStr "10.00"; "currency" := VStr "USD" ]};
          "receiver" := VStr "payee@example.com";
          "note" := VNum (num_of_Z 5) ]}.

Definition usd_item : value :=
  VObj {[ "name" := VStr "Consulting"; "quantity" := VStr "1";
          "unit_amount" := VObj {[ "currency_code" := VStr "USD";
                                   "value" := VStr "10.00" ]} ]}.

Definition recipient (email : string) : value :=
  VObj {[ "billing_info" := VObj {[ "email_address" := VStr email ]} ]}.



(** A referenced payout with the four required fields and nothing else. *)
Definition bare_referenced_payout : value :=
  VObj {[ "reference_id" := VStr "REF-1";
          "reference_type" := VStr "TRANSACTION_ID";
          "payout_amount" := VObj {[ "currency_code" := VStr "USD";
                                     "value" := VStr "10.00" ]};
          "payout_destination" := VStr "MERCHANT-1" ]}.

(** A referenced payout whose [processing_state] is [null]. *)
Definition referenced_payout_with_null_state : value :=
  VObj {[ "reference_id" := VStr "REF-1";
          "reference_type" := VStr "TRANSACTION_ID";
          "payout_amount" := VObj {[ "currency_code" := VStr "USD";
                                     "value" := VStr "10.00" ]};
          "payout_destination" := VStr "MERCHANT-1";
          "processing_state" := VNull ]}.

(** ** Errors, requests and declared types *)

(** The errors of the validation layer: the protocol error InvalidParams, or
    the engine's TypeError for a property read on [null] or [undefined]. *)
Definition validation_error (e : exn) : Prop :=
  (∃ msg, e = McpError InvalidParams msg)
  ∨ (∃ base k, e = TypeError base k ∧ (base = VUndefined ∨ base = VNull)).

(** The callbacks of the maps, by the array they are applied to. *)
Definition callbacks : list (value → result value) :=
  [ validatePayment_transaction; validatePayout_item;
    validateReferencedPayout_ref; validatePayPalOrder_unit;
    validatePartnerReferral_owner; validatePartnerReferral_name;
    validatePayPalInvoice_item ].

(** The validators that reject (all but the pagination validator). *)
Definition strict_validators : list (value → result value) :=
  [ validatePaymentToken; validatePayment; validatePayout;
    validateReferencedPayout; validatePayPalOrder; validatePartnerReferral;
    validateWebProfile; validatePayPalProduct; validateDisputeParams;
    validateTokenParams; validatePayPalInvoice ].

(** The envelope a tool call returns for the reply of the remote API: the
    response body as text, or the upstream message (the transport's text
    when there is none) with the error flag. *)
Definition reported (rt : Runtime) (r : reply) : Envelope :=
  match r with
  | Response data => content rt data
  | Failed e =>
      {| text := "PayPal API error: "
                 ++ nonempty_or (default "" (response_data_message e))
                                (axios_message e);
         isError := true |}
  end.

(** The path each tool posts its validated payload to. *)
Definition post_paths : list (string * string) :=
  [ ("create_payment_token", "/v3/payment-tokens");
    ("create_payment", "/v2/payments/payment");
    ("create_payout", "/v1/payments/payouts");
    ("create_referenced_payout", "/v1/payments/referenced-payouts");
    ("create_order", "/v2/checkout/orders");
    ("create_partner_referral", "/v2/customer/partner-referrals");
    ("create_web_profile", "/v1/payment-experience/web-profiles");
    ("create_product", "/v1/catalogs/products");
    ("create_invoice", "/v2/invoicing/invoices") ].

(** The request of [axios.post(url, payload, { headers })] with a bearer
    token. *)
Definition post_request (path : string) (token : string) (payload : value) : Request :=
  {| method := POST; url := api ++ path; query := [];
     content_type := "application/json";
     authorization := Bearer token; body := JsonBody payload |}.

(** The request of [axios.get(url, { headers })] with a bearer token. *)
Definition get_request (path : string) (token : string) : Request :=
  {| method := GET; url := api ++ path; query := [];
     content_type := "application/json";
     authorization := Bearer token; body := NoBody |}.

(** The state after some requests have been sent. *)
Definition logged (w : World) (reqs : list Request) : World :=
  {| accessToken := accessToken w; sent := sent w ++ reqs |}.

(** Code that sends nothing, or one request to an endpoint other than the
    token endpoint, and leaves the credential alone. *)
Definition sends_at_most_one {A} (m : M A) : Prop :=
  ∀ w, accessToken (m w).2 = accessToken w
       ∧ (sent (m w).2 = sent w
          ∨ ∃ req, is_token_fetch req = false ∧ sent (m w).2 = (sent w ++ [req])%list).

(** Code inside the [try] that throws validation errors and failed HTTP
    calls only. *)
Definition throws_validation_or_axios {A} (m : M A) : Prop :=
  ∀ w e w', m w = (Throw e, w') → validation_error e ∨ ∃ ae, e = Axios ae.

(** The arrays a validator requires to be non-empty: the function that
    reads the array and the property that holds it. *)
Definition nonempty_arrays : list ((value → result value) * string) :=
  [ (validatePayment, "transactions");
    (validatePayout, "items");
    (validateReferencedPayout, "referenced_payouts");
    (validatePayPalOrder, "purchase_units");
    (validatePartnerReferral_owner, "names");
    (validatePayPalInvoice, "primary_recipients");
    (validatePayPalInvoice, "items") ].

(** The fields of primitive type that a validator copies on their own: the
    function, the path of the field and the [typeof] the code asks for. *)
Definition copied_fields : list ((value → result value) * list string * string) :=
  [ (validatePaymentToken, ["customer"; "id"], "string");
    (validatePaymentToken, ["customer"; "email_address"], "string");
    (validatePaymentToken, ["payment_source"; "paypal"; "email_address"], "string");
    (validatePayment, ["intent"], "string");
    (validatePayment, ["payer"; "payment_method"], "string");
    (validatePayment_transaction, ["amount"; "total"], "string");
    (validatePayment_transaction, ["amount"; "currency"], "string");
    (validatePayment_transaction, ["description"], "string");
    (validatePayout, ["sender_batch_header"; "sender_batch_id"], "string");
    (validatePayout, ["sender_batch_header"; "email_subject"], "string");
    (validatePayout, ["sender_batch_header"; "recipient_type"], "string");
    (validatePayout_item, ["recipient_type"], "string");
    (validatePayout_item, ["amount"; "value"], "string");
    (validatePayout_item, ["amount"; "currency"], "string");
    (validatePayout_item, ["receiver"], "string");
    (validatePayout_item, ["note"], "string");
    (validatePayout_item, ["sender_item_id"], "string");
    (validateReferencedPayout_ref, ["reference_id"], "string");
    (validateReferencedPayout_ref, ["reference_type"], "string");
    (validateReferencedPayout_ref, ["payout_amount"; "currency_code"], "string");
    (validateReferencedPayout_ref, ["payout_amount"; "value"], "string");
    (validateReferencedPayout_ref, ["payout_destination"], "string");
    (validatePayPalOrder, ["intent"], "string");
    (validatePayPalOrder_unit, ["amount"; "currency_code"], "string");
    (validatePayPalOrder_unit, ["amount"; "value"], "string");
    (validatePayPalOrder_unit, ["description"], "string");
    (validatePayPalOrder_unit, ["reference_id"], "string");
    (validatePartnerReferral, ["business_entity"; "business_type"; "type"], "string");
    (validatePartnerReferral, ["business_entity"; "business_name"], "string");
    (validatePartnerReferral, ["email"], "string");
    (validatePartnerReferral_name, ["given_name"], "string");
    (validatePartnerReferral_name, ["surname"], "string");
    (validateWebProfile, ["name"], "string");
    (validateWebProfile, ["presentation"; "brand_name"], "string");
    (validateWebProfile, ["presentation"; "logo_image"], "string");
    (validateWebProfile, ["presentation"; "locale_code"], "string");
    (validateWebProfile, ["input_fields"; "no_shipping"], "number");
    (validateWebProfile, ["input_fields"; "address_override"], "number");
    (validateWebProfile, ["flow_config"; "landing_page_type"], "string");
    (validateWebProfile, ["flow_config"; "bank_txn_pending_url"], "string");
    (validatePayPalProduct, ["name"], "string");
    (validatePayPalProduct, ["description"], "string");
    (validatePayPalProduct, ["type"], "string");
    (validatePayPalProduct, ["category"], "string");
    (validatePayPalProduct, ["image_url"], "string");
    (validatePayPalProduct, ["home_url"], "string");
    (validateDisputeParams, ["dispute_id"], "string");
    (validateTokenParams, ["access_token"], "string");
    (validatePayPalInvoice, ["detail"; "invoice_number"], "string");
    (validatePayPalInvoice, ["detail"; "reference"], "string");
    (validatePayPalInvoice, ["detail"; "currency_code"], "string");
    (validatePayPalInvoice_item, ["name"], "string");
    (validatePayPalInvoice_item, ["quantity"], "string");
    (validatePayPalInvoice_item, ["unit_amount"; "currency_code"], "string");
    (validatePayPalInvoice_item, ["unit_amount"; "value"], "string") ].

(** The types the interfaces of the source are written in.  A field of an
    object type has a name, a flag for [?] and a type. *)
Inductive ty :=
| TString
| TNumber
| TLiteral (literals : list string)
| TAny
| TArray (elem : ty)
| TObject (fields : list (string * bool * ty)).

Definition required (k : string) (t : ty) : string * bool * ty := (k, false, t).
Definition optional (k : string) (t : ty) : string * bool * ty := (k, true, t).

(** [conforms t v]: [v] has type [t] and, where [t] is an object type, no
    property that [t] does not declare.  An optional field may be absent or
    [undefined]. *)
Fixpoint conforms (t : ty) (v : value) : Prop :=
  match t with
  | TString => is_string v = true
  | TNumber => is_number v = true
  | TLiteral literals => includes literals v = true
  | TAny => True
  | TArray elem =>
      ∃ l, v = VArr l
           ∧ (fix all (l : list value) : Prop :=
                match l with
                | [] => True
                | x :: rest => conforms elem x ∧ all rest
                end) l
  | TObject fields =>
      ∃ o, v = VObj o
           ∧ (∀ k, k ∉ map (λ f, f.1.1) fields → o !! k = None)
           ∧ (fix all (fs : list (string * bool * ty)) : Prop :=
                match fs with
                | [] => True
                | (k, opt, t') :: rest =>
                    match o !! k with
                    | None => opt = true
                    | Some x => (opt = true ∧ x = VUndefined) ∨ conforms t' x
                    end
                    ∧ all rest
                end) fields
  end.

Definition Amount (first second : string) : ty :=
  TObject [ required first TString; required second TString ].

Definition PayPalPaymentToken : ty :=
  TObject
    [ optional "id" TString;
      required "customer"
        (TObject
           [ required "id" TString;
             optional "email_address" TString;
             optional "phone"
               (TObject
                  [ required "phone_type" TString;
                    required "phone_number"
                      (TObject [ required "national_number" TString ]) ]) ]);
      required "payment_source"
        (TObject
           [ optional "card"
               (TObject
                  [ required "name" TString; required "number" TString;
                    required "expiry" TString; required "security_code" TString ]);
             optional "paypal"
               (TObject
                  [ required "email_address" TString;
                    optional "account_id" TString ]) ]) ].

Definition CreditCard : ty :=
  TObject
    [ required "number" TString; required "type" TString;
      required "expire_month" TNumber; required "expire_year" TNumber;
      required "cvv2" TString; required "first_name" TString;
      required "last_name" TString ].

Definition PaymentTransaction : ty :=
  TObject [ required "amount" (Amount "total" "currency");
            optional "description" TString ].

(** [PayPalPayment], with the type of [payer.funding_instruments] left
    open. *)
Definition PayPalPayment_with (funding_instruments : ty) : ty :=
  TObject
    [ optional "id" TString;
      required "intent" TString;
      required "payer"
        (TObject
           [ required "payment_method" TString;
             optional "funding_instruments" funding_instruments ]);
      required "transactions" (TArray PaymentTransaction) ].

Definition PayPalPayment : ty :=
  PayPalPayment_with (TArray (TObject [ optional "credit_card" CreditCard ])).

Definition PayoutItem : ty :=
  TObject [ required "recipient_type" TString;
            required "amount" (Amount "value" "currency");
            required "receiver" TString;
            optional "note" TString;
            optional "sender_item_id" TString ].

Definition PayPalPayout : ty :=
  TObject
    [ required "sender_batch_header"
        (TObject
           [ required "sender_batch_id" TString;
             optional "email_subject" TString;
             optional "recipient_type" TString ]);
      required "items" (TArray PayoutItem) ].

(** [PayPalReferencedPayout], with the types of [processing_state.status]
    and [processing_state.reason] left open. *)
Definition ReferencedPayoutItem_with (status reason : ty) : ty :=
  TObject [ required "item_id" TString;
            required "processing_state"
              (TObject [ required "status" status; optional "reason" reason ]);
            required "reference_id" TString;
            required "reference_type" TString;
            required "payout_amount" (Amount "currency_code" "value");
            required "payout_destination" TString ].

Definition PayPalReferencedPayout_with (status reason : ty) : ty :=
  TObject [ required "referenced_payouts"
              (TArray (ReferencedPayoutItem_with status reason)) ].

Definition PayPalReferencedPayout : ty :=
  PayPalReferencedPayout_with TString TString.

Definition PurchaseUnit : ty :=
  TObject [ required "amount" (Amount "currency_code" "value");
            optional "description" TString;
            optional "reference_id" TString ].

Definition PayPalOrder : ty :=
  TObject
    [ optional "id" TString;
      required "intent" (TLiteral ["CAPTURE"; "AUTHORIZE"]);
      required "purchase_units" (TArray PurchaseUnit) ].

Definition OwnerName : ty :=
  TObject [ optional "prefix" TString;
            required "given_name" TString;
            required "surname" TString;
            optional "middle_name" TString;
            optional "suffix" TString ].

Definition Owner : ty :=
  TObject [ required "names" (TArray OwnerName);
            optional "citizenship" TString;
            optional "addresses"
              (TArray
                 (TObject
                    [ required "address_line_1" TString;
                      optional "address_line_2" TString;
                      required "admin_area_2" TString;
                      required "admin_area_1" TString;
                      required "postal_code" TString;
                      required "country_code" TString ])) ].

Definition PayPalPartnerReferral : ty :=
  TObject
    [ required "individual_owners" (TArray Owner);
      required "business_entity"
        (TObject
           [ required "business_type"
               (TObject [ required "type" TString; optional "subtype" TString ]);
             required "business_name" TString;
             optional "business_phone"
               (TObject [ required "country_code" TString;
                          required "national_number" TString ]) ]);
      required "email" TString ].

Definition PayPalWebProfile : ty :=
  TObject
    [ optional "id" TString;
      required "name" TString;
      required "presentation"
        (TObject [ optional "brand_name" TString; optional "logo_image" TString;
                   optional "locale_code" TString ]);
      required "input_fields"
        (TObject [ optional "no_shipping" TNumber;
                   optional "address_override" TNumber ]);
      required "flow_config"
        (TObject [ optional "landing_page_type" TString;
                   optional "bank_txn_pending_url" TString ]) ].

Definition PayPalProduct : ty :=
  TObject
    [ optional "id" TString;
      required "name" TString;
      required "description" TString;
      required "type" (TLiteral ["PHYSICAL"; "DIGITAL"; "SERVICE"]);
      required "category" TString;
      optional "image_url" TString;
      optional "home_url" TString ].

Definition InvoiceItem : ty :=
  TObject [ required "name" TString; required "quantity" TString;
            required "unit_amount" (Amount "currency_code" "value") ].

Definition PayPalInvoice : ty :=
  TObject
    [ optional "id" TString;
      required "detail"
        (TObject [ required "invoice_number" TString; required "reference" TString;
                   required "currency_code" TString ]);
      required "primary_recipients"
        (TArray
           (TObject
              [ required "billing_info"
                  (TObject [ required "email_address" TString ]) ]));
      required "items" (TArray InvoiceItem) ].

Definition PaginationParams : ty :=
  TObject [ optional "page_size" TNumber; optional "page" TNumber ].

Definition DisputeParams : ty := TObject [ required "dispute_id" TString ].

Definition TokenParams : ty := TObject [ required "access_token" TString ].

(** What each validator returns, as its signature declares it, and for each
    callback the element type of the array it fills; the two interfaces
    with fields left open are instantiated with [TAny]. *)
Definition return_types : list ((value → result value) * ty) :=
  [ (validatePayment_transaction, PaymentTransaction);
    (validatePayout_item, PayoutItem);
    (validateReferencedPayout_ref, ReferencedPayoutItem_with TAny TAny);
    (validatePayPalOrder_unit, PurchaseUnit);
    (validatePartnerReferral_name, OwnerName);
    (validatePartnerReferral_owner, Owner);
    (validatePayPalInvoice_item, InvoiceItem);
    (validatePaymentToken, PayPalPaymentToken);
    (validatePayment, PayPalPayment_with TAny);
    (validatePayout, PayPalPayout);
    (validateReferencedPayout, PayPalReferencedPayout_with TAny TAny);
    (validatePayPalOrder, PayPalOrder);
    (validatePartnerReferral, PayPalPartnerReferral);
    (validateWebProfile, PayPalWebProfile);
    (validatePayPalProduct, PayPalProduct);
    (validatePaginationParams, PaginationParams);
    (validateDisputeParams, DisputeParams);
    (validateTokenParams, TokenParams);
    (validatePayPalInvoice, PayPalInvoice) ].

Definition referenced_payout_with_numeric_status : value :=
  VObj {[ "reference_id" := VStr "REF-1";
          "reference_type" := VStr "TRANSACTION_ID";
          "payout_amount" := VObj {[ "currency_code" := VStr "USD";
                                     "value" := VStr "10.00" ]};
          "payout_destination" := VStr "MERCHANT-1";
          "processing_state" := VObj {[ "status" := VNum (num_of_Z 7) ]} ]}.

(** Every validator and every callback. *)
Definition all_validators : list (value → result value) :=
  [ validatePayment_transaction; validatePayout_item;
    validateReferencedPayout_ref; validatePayPalOrder_unit;
    validatePartnerReferral_name; validatePartnerReferral_owner;
    validatePayPalInvoice_item;
    validatePaymentToken; validatePayment; validatePayout;
    validateReferencedPayout; validatePayPalOrder; validatePartnerReferral;
    validateWebProfile; validatePayPalProduct; validatePaginationParams;
    validateDisputeParams; validateTokenParams; validatePayPalInvoice ].

(** ** The examples of the specification *)

Example pagination_500 :
  validatePaginationParams (VObj {[ "page_size" := VNum (num_of_Z 500) ]}) = Ok (VObj ∅).
Proof. reflexivity. Qed.

Example pagination_50 :
  validatePaginationParams (VObj {[ "page_size" := VNum (num_of_Z 50); "junk" := VNull ]})
  = Ok (VObj {[ "page_size" := VNum (num_of_Z 50) ]}).
Proof. reflexivity. Qed.

Example order_capture :
  validatePayPalOrder
    (VObj {[ "intent" := VStr "CAPTURE";
             "purchase_units" :=
               VArr [ VObj {[ "amount" := VObj {[ "currency_code" := VStr "USD";
                                                   "value" := VStr "10.00" ]} ]} ] ]})
  = Ok (VObj {[ "intent" := VStr "CAPTURE";
                "purchase_units" :=
                  VArr [ VObj {[ "amount" := VObj {[ "currency_code" := VStr "USD";
                                                      "value" := VStr "10.00" ]} ]} ] ]}).
Proof. reflexivity. Qed.

Example order_refund :
  validatePayPalOrder
    (VObj {[ "intent" := VStr "REFUND"; "purchase_units" := VArr [ VObj ∅ ] ]})
  = Throw (McpError InvalidParams "Missing required order fields").
Proof. reflexivity. Qed.

Example order_null_unit :
  validatePayPalOrder
    (VObj {[ "intent" := VStr "CAPTURE"; "purchase_units" := VArr [ VNull ] ]})
  = Throw (TypeError VNull "amount").
Proof. reflexivity. Qed.

(** ** Basic facts *)

Lemma not_object_false args :
  not_object args = false → (∃ l, args = VArr l) ∨ (∃ o, args = VObj o).
Proof. destruct args; try discriminate; eauto. Qed.

Lemma prop_insert_ne o k k' v :
  k ≠ k' → prop (VObj (<[k := v]> o)) k' = prop (VObj o) k'.
Proof. intros Hne. simpl. by rewrite lookup_insert_ne. Qed.

Lemma bind_Ok {A B} (r : result A) (f : A → result B) b :
  r ≫= f = Ok b → ∃ a, r = Ok a ∧ f a = Ok b.
Proof. destruct r; simpl; [eauto | discriminate]. Qed.

Lemma num_lt_not_le a b : num_lt a b = true → num_le b a = false.
Proof.
  destruct a, b; simpl; try done.
  intros H. by apply negb_true_iff in H.
Qed.

Lemma ge_lit_below n z : num_lt n (num_of_Z z) = true ∨ n = NaN → ge_lit (VNum n) z = false.
Proof.
  intros [H | ->]; unfold ge_lit; [by apply num_lt_not_le | done].
Qed.

Lemma le_lit_above n z : num_lt (num_of_Z z) n = true ∨ n = NaN → le_lit (VNum n) z = false.
Proof.
  intros [H | ->]; unfold le_lit; [by apply num_lt_not_le | done].
Qed.

(** A request is appended to the log whatever the reply; the credential is
    not touched. *)
Lemma send_world rt req w :
  (send rt req w).2 = {| accessToken := accessToken w; sent := sent w ++ [req] |}.
Proof. unfold send. by destruct (axios rt (sent w) req). Qed.

Ltac destruct_send :=
  match goal with
  | |- context [send ?rt ?req ?w] =>
      let Hs := fresh "Hs" in
      pose proof (send_world rt req w) as Hs;
      destruct (send rt req w) as [[?|?] ?]; simpl in Hs; subst
  end.

Section Pagination.
Context (rt : Runtime).

Lemma pagination_total args : ∃ o, validatePaginationParams args = Ok (VObj o).
Proof.
  unfold validatePaginationParams.
  destruct (not_object args) eqn:Hobj; [eauto |].
  apply not_object_false in Hobj as [[l ->] | [o ->]]; simpl; eauto.
Qed.

Lemma pagination_page_size args o v :
  validatePaginationParams args = Ok (VObj o) →
  prop args "page_size" = Ok v →
  (is_number v && ge_lit v 1 && le_lit v 100 = false → o !! "page_size" = None)
  ∧ (is_number v && ge_lit v 1 && le_lit v 100 = true → o !! "page_size" = Some v).
Proof.
  unfold validatePaginationParams.
  destruct (not_object args) eqn:Hobj.
  - intros [= <-] Hv. destruct args; try discriminate; simpl in Hv.
    all: injection Hv as <-; simpl; done.
  - intros H Hv. rewrite Hv in H. simpl in H.
    apply bind_Ok in H as (pg & _ & H). injection H as <-.
    unfold set_if. split; intros ->.
    + case_match; [by rewrite lookup_insert_ne | done].
    + case_match; [rewrite lookup_insert_ne by done|]; by rewrite lookup_insert_eq.
Qed.
Lemma pagination_page args o v :
  validatePaginationParams args = Ok (VObj o) →
  prop args "page" = Ok v →
  (is_number v && ge_lit v 1 = false → o !! "page" = None)
  ∧ (is_number v && ge_lit v 1 = true → o !! "page" = Some v).
Proof.
  unfold validatePaginationParams.
  destruct (not_object args) eqn:Hobj.
  - intros [= <-] Hv. destruct args; try discriminate; simpl in Hv.
    all: injection Hv as <-; simpl; done.
  - intros H Hv. apply bind_Ok in H as (ps & _ & H).
    rewrite Hv in H. simpl in H. injection H as <-.
    unfold set_if. split; intros ->.
    + by case_match; [rewrite lookup_insert_ne by done; rewrite lookup_empty |].
    + by rewrite lookup_insert_eq.
Qed.

Lemma pagination_not_plain_object args :
  (∀ o, args ≠ VObj o) → validatePaginationParams args = Ok (VObj ∅).
Proof. intros H. destruct args; try done. by destruct (H o). Qed.

(** The request of the [list_products] case. *)
Lemma list_products_request arguments headers w o :
  validatePaginationParams arguments = Ok (VObj o) →
  ∃ ps pg,
    sent (tool_switch rt "list_products" arguments headers w).2
    = (sent w ++ [ {| method := GET; url := api ++ "/v1/catalogs/products";
                      query := [("page_size", ps); ("page", pg)];
                      content_type := "application/json";
                      authorization := headers; body := NoBody |} ])%list
    ∧ (o !! "page_size" = None → ps = "10")
    ∧ (o !! "page" = None → pg = "1").
Proof.
  intros H. change (tool_switch rt "list_products" arguments headers)
    with (case_list_products rt arguments headers).
  unfold case_list_products, mbind, M_bind, lift. rewrite H. simpl prop.
  eexists _, _. split.
  - unfold axios_get. destruct_send; reflexivity.
  - split; intros ->; reflexivity.
Qed.
End Pagination.

(** C6. The pagination validator never throws and yields an object; an input
    that is not a plain object yields the empty object; a [page_size] that is
    not a number within [1,100] (below 1, above 100 or NaN) is absent from
    the result, as is a [page] that is not a number at least 1; and the
    [list_products] request carries [page_size=10] and [page=1] for whichever
    of the two the validated result lacks. *)
Theorem pagination_soft_with_query_defaults (rt : Runtime) :
  (∀ args, ∃ o, validatePaginationParams args = Ok (VObj o))
  ∧ (∀ args, (∀ o, args ≠ VObj o) → validatePaginationParams args = Ok (VObj ∅))
  ∧ (∀ args o v,
       validatePaginationParams args = Ok (VObj o) →
       prop args "page_size" = Ok v →
       (∀ n, v = VNum n →
             num_lt n (num_of_Z 1) = true ∨ num_lt (num_of_Z 100) n = true ∨ n = NaN) →
       o !! "page_size" = None)
  ∧ (∀ args o v,
       validatePaginationParams args = Ok (VObj o) →
       prop args "page" = Ok v →
       (∀ n, v = VNum n → num_lt n (num_of_Z 1) = true ∨ n = NaN) →
       o !! "page" = None)
  ∧ (∀ arguments headers w o,
       validatePaginationParams arguments = Ok (VObj o) →
       ∃ ps pg,
         sent (tool_switch rt "list_products" arguments headers w).2
         = (sent w ++ [ {| method := GET; url := api ++ "/v1/catalogs/products";
                           query := [("page_size", ps); ("page", pg)];
                           content_type := "application/json";
                           authorization := headers; body := NoBody |} ])%list
         ∧ (o !! "page_size" = None → ps = "10")
         ∧ (o !! "page" = None → pg = "1")).
Proof.
  split; [apply pagination_total |].
  split; [apply pagination_not_plain_object |].
  split; [| split; [| apply list_products_request]].
  - intros args o v Hv Hp Hout.
    apply (pagination_page_size args o v Hv Hp).
    destruct v; try done.
    destruct (Hout n eq_refl) as [H | [H | H]].
    + by rewrite (ge_lit_below n 1 (or_introl H)).
    + rewrite (le_lit_above n 100 (or_introl H)). apply andb_false_r.
    + by rewrite (ge_lit_below n 1 (or_intror H)).
  - intros args o v Hv Hp Hout.
    apply (pagination_page args o v Hv Hp).
    destruct v; try done.
    by rewrite (ge_lit_below n 1 (Hout n eq_refl)).
Qed.

(** The specification's [list_products] example, [{page_size: 500}]: the
    validated object is empty and the query falls back to 10 and 1. *)
Lemma pagination_soft_with_query_defaults_witness :
  validatePaginationParams (VObj {[ "page_size" := VNum (num_of_Z 500) ]})
    = Ok (VObj ∅)
  ∧ ∃ ps pg,
      sent (tool_switch online "list_products"
              (VObj {[ "page_size" := VNum (num_of_Z 500) ]}) (Bearer "A21AAK")
              initial).2
      = [ {| method := GET; url := api ++ "/v1/catalogs/products";
             query := [("page_size", ps); ("page", pg)];
             content_type := "application/json";
             authorization := Bearer "A21AAK"; body := NoBody |} ]
      ∧ ((∅ : gmap string value) !! "page_size" = None → ps = "10")
      ∧ ((∅ : gmap string value) !! "page" = None → pg = "1").
Proof.
  split; [reflexivity |].
  apply (proj2 (proj2 (proj2 (proj2 (pagination_soft_with_query_defaults online))))
           (VObj {[ "page_size" := VNum (num_of_Z 500) ]}) (Bearer "A21AAK")
           initial ∅).
  reflexivity.
Defined.

(** ** Enum-constrained fields *)

Lemma includes_true lits v :
  includes lits v = true → ∃ s, v = VStr s ∧ s ∈ lits.
Proof.
  destruct v; try discriminate. simpl. intros H%bool_decide_eq_true. eauto.
Qed.

Lemma order_intent_outside args :
  (∀ s, s ∈ order_intents → prop args "intent" ≠ Ok (VStr s)) →
  ∃ msg, validatePayPalOrder args = Throw (McpError InvalidParams msg).
Proof.
  intros Hout. unfold validatePayPalOrder, invalid.
  destruct (not_object args) eqn:Hobj; [eauto |].
  destruct (prop args "intent") as [intent | e] eqn:Hi.
  - simpl. destruct (prop args "purchase_units") as [units | e] eqn:Hu; simpl.
    + destruct (includes order_intents intent) eqn:Hin; [| simpl; eauto].
      apply includes_true in Hin as (s & -> & Hs). by destruct (Hout s Hs).
    + apply not_object_false in Hobj as [[l ->] | [o ->]]; discriminate.
  - apply not_object_false in Hobj as [[l ->] | [o ->]]; discriminate.
Qed.

Lemma order_intent_unchanged args s out :
  prop args "intent" = Ok (VStr s) →
  validatePayPalOrder args = Ok out →
  prop out "intent" = Ok (VStr s).
Proof.
  intros Hi. unfold validatePayPalOrder, invalid.
  destruct (not_object args); [discriminate |].
  rewrite Hi. simpl. intros H.
  apply bind_Ok in H as (units & _ & H).
  destruct (_ || _) in H; [discriminate |].
  apply bind_Ok in H as (validated & _ & H). injection H as <-.
  simpl. by rewrite lookup_insert_eq.
Qed.

Lemma order_intent_inside args s units validated :
  prop args "intent" = Ok (VStr s) →
  s ∈ order_intents →
  prop args "purchase_units" = Ok (VArr units) →
  units ≠ [] →
  Array_map validatePayPalOrder_unit units = Ok validated →
  validatePayPalOrder args
  = Ok (VObj {[ "intent" := VStr s; "purchase_units" := VArr validated ]}).
Proof.
  intros Hi Hs Hu Hne Hmap. unfold validatePayPalOrder.
  destruct (not_object args) eqn:Hobj.
  { destruct args; try discriminate. }
  rewrite Hi, Hu. simpl mbind. rewrite (bool_decide_eq_true_2 _ Hs).
  destruct units as [| u units]; [done |].
  simpl negb. simpl orb. cbv iota. by rewrite Hmap.
Qed.

Lemma product_type_outside args :
  (∀ s, s ∈ product_types → prop args "type" ≠ Ok (VStr s)) →
  ∃ msg, validatePayPalProduct args = Throw (McpError InvalidParams msg).
Proof.
  intros Hout. unfold validatePayPalProduct, invalid.
  destruct (not_object args) eqn:Hobj; [eauto |].
  apply not_object_false in Hobj as [[l ->] | [o ->]].
  - simpl. eauto.
  - simpl in *.
    destruct (includes product_types (default VUndefined (o !! "type"))) eqn:Hin.
    + apply includes_true in Hin as (s & Hv & Hs).
      destruct (Hout s Hs). by rewrite Hv.
    + rewrite !orb_true_r. simpl. eauto.
Qed.

Lemma product_type_unchanged args s out :
  prop args "type" = Ok (VStr s) →
  validatePayPalProduct args = Ok out →
  prop out "type" = Ok (VStr s).
Proof.
  intros Hi. unfold validatePayPalProduct, invalid.
  destruct (not_object args); [discriminate |].
  intros H.
  apply bind_Ok in H as (name & _ & H).
  apply bind_Ok in H as (description & _ & H).
  rewrite Hi in H. simpl in H.
  apply bind_Ok in H as (category & _ & H).
  destruct (_ || _) in H; [discriminate |].
  apply bind_Ok in H as (image_url & _ & H).
  apply bind_Ok in H as (home_url & _ & H).
  injection H as <-. simpl. unfold set_if.
  repeat case_match; by simplify_map_eq.
Qed.

Lemma product_type_inside o s name description category :
  o !! "type" = Some (VStr s) →
  s ∈ product_types →
  o !! "name" = Some (VStr name) →
  o !! "description" = Some (VStr description) →
  o !! "category" = Some (VStr category) →
  ∃ out, validatePayPalProduct (VObj o) = Ok (VObj out)
         ∧ out !! "type" = Some (VStr s).
Proof.
  intros Ht Hs Hn Hd Hc. unfold validatePayPalProduct. simpl.
  rewrite Ht, Hn, Hd, Hc. simpl. rewrite (bool_decide_eq_true_2 _ Hs). simpl.
  eexists. split; [reflexivity |].
  unfold set_if. repeat case_match; by simplify_map_eq.
Qed.

(** C7. An [intent] outside {CAPTURE, AUTHORIZE} makes [validatePayPalOrder]
    throw InvalidParams, and a [type] outside {PHYSICAL, DIGITAL, SERVICE}
    makes [validatePayPalProduct] throw InvalidParams, whatever else the
    input holds; a value inside the set passes the check (the call succeeds
    when the other required fields are valid) and is the value of the field
    in every validated output. *)
Theorem enum_fields_checked_by_membership :
  (∀ args,
     (∀ s, s ∈ order_intents → prop args "intent" ≠ Ok (VStr s)) →
     ∃ msg, validatePayPalOrder args = Throw (McpError InvalidParams msg))
  ∧ (∀ args s out,
       prop args "intent" = Ok (VStr s) →
       validatePayPalOrder args = Ok out →
       prop out "intent" = Ok (VStr s))
  ∧ (∀ args s units validated,
       prop args "intent" = Ok (VStr s) →
       s ∈ order_intents →
       prop args "purchase_units" = Ok (VArr units) →
       units ≠ [] →
       Array_map validatePayPalOrder_unit units = Ok validated →
       validatePayPalOrder args
       = Ok (VObj {[ "intent" := VStr s; "purchase_units" := VArr validated ]}))
  ∧ (∀ args,
       (∀ s, s ∈ product_types → prop args "type" ≠ Ok (VStr s)) →
       ∃ msg, validatePayPalProduct args = Throw (McpError InvalidParams msg))
  ∧ (∀ args s out,
       prop args "type" = Ok (VStr s) →
       validatePayPalProduct args = Ok out →
       prop out "type" = Ok (VStr s))
  ∧ (∀ o s name description category,
       o !! "type" = Some (VStr s) →
       s ∈ product_types →
       o !! "name" = Some (VStr name) →
       o !! "description" = Some (VStr description) →
       o !! "category" = Some (VStr category) →
       ∃ out, validatePayPalProduct (VObj o) = Ok (VObj out)
              ∧ out !! "type" = Some (VStr s)).
Proof.
  repeat split.
  - apply order_intent_outside.
  - apply order_intent_unchanged.
  - apply order_intent_inside.
  - apply product_type_outside.
  - apply product_type_unchanged.
  - apply product_type_inside.
Qed.

(** The specification's two [create_order] examples: REFUND is rejected,
    CAPTURE is kept. *)
Lemma enum_fields_checked_by_membership_witness :
  (∃ msg,
     validatePayPalOrder
       (VObj {[ "intent" := VStr "REFUND"; "purchase_units" := VArr [usd_10] ]})
     = Throw (McpError InvalidParams msg))
  ∧ validatePayPalOrder
      (VObj {[ "intent" := VStr "CAPTURE"; "purchase_units" := VArr [usd_10] ]})
    = Ok (VObj {[ "intent" := VStr "CAPTURE"; "purchase_units" := VArr [usd_10] ]}).
Proof.
  split.
  - apply (proj1 enum_fields_checked_by_membership).
    intros s Hs. vm_compute. intros [= <-].
    by apply (bool_decide_pack _) in Hs.
  - apply (proj1 (proj2 (proj2 enum_fields_checked_by_membership))
             _ "CAPTURE" [usd_10] [usd_10]).
    + reflexivity.
    + by apply (bool_decide_unpack _).
    + reflexivity.
    + discriminate.
    + reflexivity.
Defined.

(** ** Sanitizing projection *)

(** Every entry of a table given by extension, one goal per entry. *)
Ltac each_entry H :=
  repeat (apply elem_of_cons in H as [H | H]; [simplify_eq |]);
  [.. | by apply elem_of_nil in H].

Ltac split_not_elem_of H :=
  repeat (apply not_elem_of_cons in H as [? H]); clear H.

Lemma validators_ignore_other_fields name validate keys o k v :
  (name, validate, keys) ∈ validators →
  k ∉ keys →
  validate (VObj (<[k := v]> o)) = validate (VObj o).
Proof.
  intros Hin Hk. unfold validators in Hin.
  each_entry Hin; split_not_elem_of Hk.
  - unfold validatePaymentToken. by rewrite !prop_insert_ne by done.
  - unfold validatePayment. by rewrite !prop_insert_ne by done.
  - unfold validatePayout. by rewrite !prop_insert_ne by done.
  - unfold validateReferencedPayout. by rewrite !prop_insert_ne by done.
  - unfold validatePayPalOrder. by rewrite !prop_insert_ne by done.
  - unfold validatePartnerReferral. by rewrite !prop_insert_ne by done.
  - unfold validateWebProfile. by rewrite !prop_insert_ne by done.
  - unfold validatePayPalProduct. by rewrite !prop_insert_ne by done.
  - unfold validatePaginationParams. by rewrite !prop_insert_ne by done.
  - unfold validateDisputeParams. by rewrite !prop_insert_ne by done.
  - unfold validateTokenParams. by rewrite !prop_insert_ne by done.
  - unfold validatePayPalInvoice. by rewrite !prop_insert_ne by done.
Qed.

(** Taking a successful run of a validator apart, statement by statement:
    a read that returned, a guard that did not throw, a branch taken. *)
Ltac invert_validation H :=
  cbv zeta in H;
  lazymatch type of H with
  | prop _ _ = Ok _ => idtac
  | Array_map _ _ = Ok _ => idtac
  | Ok _ = Ok _ => injection H as H; subst
  | invalid _ = Ok _ => discriminate H
  | Throw _ = Ok _ => discriminate H
  | (if ?c then _ else _) = Ok _ =>
      let Hc := fresh "Hc" in destruct c eqn:Hc; invert_validation H
  | mbind _ _ = Ok _ =>
      let a := fresh "a" in
      let Ha := fresh "Ha" in
      apply bind_Ok in H as (a & Ha & H);
      invert_validation Ha; invert_validation H
  end.

(** Looking a property up in an object a validator has built. *)
Lemma lookup_set_if_ne c k k' v (m : gmap string value) :
  k ≠ k' → set_if c k v m !! k' = m !! k'.
Proof. intros Hne. unfold set_if. destruct c; [by rewrite lookup_insert_ne | done]. Qed.

Lemma lookup_set_if_eq c k v (m : gmap string value) :
  set_if c k v m !! k = if c then Some v else m !! k.
Proof. unfold set_if. destruct c; [by rewrite lookup_insert_eq | done]. Qed.

Ltac lookup_built :=
  repeat first
    [ rewrite lookup_set_if_ne by done
    | rewrite lookup_insert_ne by done
    | rewrite lookup_singleton_ne by done
    | rewrite lookup_insert_eq
    | rewrite lookup_singleton_eq
    | rewrite lookup_empty ].

Lemma validators_output_keys name validate keys args out :
  (name, validate, keys) ∈ validators →
  validate args = Ok out →
  ∃ o, out = VObj o ∧ ∀ k, k ∉ keys → o !! k = None.
Proof.
  intros Hin H. unfold validators in Hin.
  each_entry Hin.
  all: match type of H with ?f _ = _ => unfold f in H end.
  all: invert_validation H.
  all: eexists; split; [reflexivity |].
  all: intros k Hk; split_not_elem_of Hk.
  all: by lookup_built.
Qed.

(** The table names exactly the advertised tools, in order. *)
Lemma validators_cover_registry : (λ entry, entry.1.1) <$> validators = registry.
Proof. reflexivity. Qed.

(** C4. For every validator, a top-level field it does not recognize has no
    influence on the result (adding or overwriting such a field in the input
    object leaves the result unchanged) and no such field is a property of a
    validated output. *)
Theorem validators_project_recognized_fields name validate keys :
  (name, validate, keys) ∈ validators →
  (∀ o k v, k ∉ keys → validate (VObj (<[k := v]> o)) = validate (VObj o))
  ∧ (∀ args out,
       validate args = Ok out →
       ∃ o, out = VObj o ∧ ∀ k, k ∉ keys → o !! k = None).
Proof.
  intros Hin. split.
  - intros o k v. by apply (validators_ignore_other_fields name).
  - intros args out. by apply (validators_output_keys name).
Qed.

(** An order carrying an extra [payer_note]: the validated order is the one
    of the plain input. *)
Lemma validators_project_recognized_fields_witness :
  validatePayPalOrder
    (VObj (<["payer_note" := VStr "smuggled"]>
             {[ "intent" := VStr "CAPTURE"; "purchase_units" := VArr [usd_10] ]}))
  = validatePayPalOrder
      (VObj {[ "intent" := VStr "CAPTURE"; "purchase_units" := VArr [usd_10] ]}).
Proof.
  apply (proj1 (validators_project_recognized_fields
                  "create_order" validatePayPalOrder ["intent"; "purchase_units"]
                  (list_elem_of_lookup_2 validators 4 _ eq_refl))).
  by apply (bool_decide_unpack _).
Defined.

(** ** The dispatcher *)

Section Dispatcher.
Context (rt : Runtime).

Lemma getAccessToken_cached w :
  truthy (accessToken w) = true → getAccessToken rt w = (Ok (accessToken w), w).
Proof.
  intros H. unfold getAccessToken, mbind, M_bind, get_accessToken. by rewrite H.
Qed.

(** Without a usable cached value the provider sends the token request, and
    nothing else, before it returns or throws. *)
Lemma getAccessToken_uncached w :
  truthy (accessToken w) = false →
  sent (getAccessToken rt w).2 = (sent w ++ [token_request rt])%list.
Proof.
  intros H. unfold getAccessToken, mbind, M_bind, get_accessToken. rewrite H.
  destruct_send; [| done].
  unfold lift, set_accessToken, throw, mret, M_ret.
  destruct (prop a "access_token") as [tok | e]; [| done].
  by destruct (truthy tok).
Qed.

Lemma getAccessToken_returns w tok w' :
  getAccessToken rt w = (Ok tok, w') → truthy tok = true ∧ accessToken w' = tok.
Proof.
  unfold getAccessToken, mbind, M_bind, get_accessToken.
  destruct (truthy (accessToken w)) eqn:Hc.
  - by intros [= <- <-].
  - destruct_send; [| done].
    unfold lift, set_accessToken, throw, mret, M_ret.
    destruct (prop a "access_token") as [v | e]; [| done].
    destruct (truthy v) eqn:Hv; [| done]. by intros [= <- <-].
Qed.

(** A failing validator ends its [case] before any request is sent. *)
Lemma tool_switch_validation_failure name validate keys arguments headers w e :
  (name, validate, keys) ∈ validators →
  validate arguments = Throw e →
  tool_switch rt name arguments headers w = (Throw e, w).
Proof.
  intros Hin Hv. unfold validators in Hin. each_entry Hin.
  all: unfold tool_switch;
    repeat match goal with
    | |- context [String.eqb ?a ?b] =>
        let r := eval vm_compute in (String.eqb a b) in
        change (String.eqb a b) with r
    end; cbv iota.
  all: unfold post_tool, case_list_products, case_get_dispute, case_get_userinfo,
         case_create_invoice, mbind, M_bind, lift.
  all: by rewrite Hv.
Qed.

(** A name outside the registry reaches the [default] branch. *)
Lemma tool_switch_unknown name arguments headers :
  name ∉ registry →
  tool_switch rt name arguments headers
  = throw (McpError MethodNotFound ("Unknown tool: " ++ name)).
Proof.
  intros Hout. unfold registry in Hout. split_not_elem_of Hout.
  unfold tool_switch.
  repeat match goal with
  | H : name ≠ ?lit |- context [String.eqb name ?lit] =>
      rewrite (proj2 (String.eqb_neq name lit) H)
  end.
  reflexivity.
Qed.

Lemma callTool_with_credential name arguments w :
  truthy arguments = true →
  truthy (accessToken w) = true →
  callTool rt name arguments w
  = try_catch (tool_switch rt name arguments (Bearer (template rt (accessToken w))))
              (tool_catch rt) w.
Proof.
  intros Ha Hc. unfold callTool. rewrite Ha.
  change (negb true) with false. cbv iota.
  unfold mbind, M_bind. by rewrite (getAccessToken_cached w Hc).
Qed.

(** What the [catch] block makes of a protocol error thrown inside the
    [try]: an InternalError, whatever the code was. *)
Lemma callTool_rewraps_McpError name arguments w code msg w' :
  truthy arguments = true →
  truthy (accessToken w) = true →
  tool_switch rt name arguments (Bearer (template rt (accessToken w))) w
  = (Throw (McpError code msg), w') →
  callTool rt name arguments w
  = (Throw (McpError InternalError
              (nonempty_or (McpError_message rt code msg)
                           "An unexpected error occurred")), w').
Proof.
  intros Ha Hc Hs. rewrite (callTool_with_credential _ _ _ Ha Hc).
  unfold try_catch. by rewrite Hs.
Qed.

End Dispatcher.

(** With a credential at hand, a validator's protocol error reaches the
    caller as an InternalError and no request is sent. *)
Lemma validation_failure_rewrapped rt name validate keys arguments w code msg :
  (name, validate, keys) ∈ validators →
  truthy arguments = true →
  truthy (accessToken w) = true →
  validate arguments = Throw (McpError code msg) →
  callTool rt name arguments w
  = (Throw (McpError InternalError
              (nonempty_or (McpError_message rt code msg)
                           "An unexpected error occurred")), w).
Proof.
  intros Hin Ha Hc Hv. apply callTool_rewraps_McpError; [done | done |].
  by apply (tool_switch_validation_failure rt name validate keys).
Qed.

(** With a credential at hand, an unregistered name reaches the caller as an
    InternalError. *)
Lemma unknown_tool_rewrapped rt name arguments w :
  name ∉ registry →
  truthy arguments = true →
  truthy (accessToken w) = true →
  callTool rt name arguments w
  = (Throw (McpError InternalError
              (nonempty_or (McpError_message rt MethodNotFound ("Unknown tool: " ++ name))
                           "An unexpected error occurred")), w).
Proof.
  intros Hout Ha Hc. apply callTool_rewraps_McpError; [done | done |].
  by rewrite tool_switch_unknown.
Qed.

(** C1, at the specification's rejected order: the validator throws
    InvalidParams, the call throws InternalError. *)
Theorem invalid_order_reaches_caller_as_InternalError (rt : Runtime) :
  validatePayPalOrder refund_order
    = Throw (McpError InvalidParams "Missing required order fields")
  ∧ callTool rt "create_order" refund_order with_credential
    = (Throw (McpError InternalError
                (nonempty_or
                   (McpError_message rt InvalidParams "Missing required order fields")
                   "An unexpected error occurred")),
       with_credential).
Proof.
  split; [reflexivity |].
  apply (validation_failure_rewrapped rt "create_order" validatePayPalOrder
           ["intent"; "purchase_units"]); try reflexivity.
  apply (list_elem_of_lookup_2 validators 4 _ eq_refl).
Qed.

(** C2, at a name outside the registry: the [default] branch throws
    MethodNotFound, the call throws InternalError. *)
Theorem unknown_tool_reaches_caller_as_InternalError (rt : Runtime) :
("refund_payment" ∉ registry)
  ∧ tool_switch rt "refund_payment" (VObj ∅) (Bearer "A21AAK") with_credential
    = (Throw (McpError MethodNotFound "Unknown tool: refund_payment"), with_credential)
  ∧ callTool rt "refund_payment" (VObj ∅) with_credential
    = (Throw (McpError InternalError
                (nonempty_or
                   (McpError_message rt MethodNotFound "Unknown tool: refund_payment")
                   "An unexpected error occurred")),
       with_credential).
Proof.
  assert (Hout : "refund_payment" ∉ registry).
  { intros Hin. by apply (bool_decide_pack _) in Hin. }
  split; [done |]. split; [reflexivity |].
  by apply (unknown_tool_rewrapped rt "refund_payment").
Qed.

(** ** Validation and the token fetch *)

Lemma dispute_id_missing arguments :
  (∀ s, prop arguments "dispute_id" ≠ Ok (VStr s)) →
  validateDisputeParams arguments = Throw (McpError InvalidParams "Invalid dispute ID").
Proof.
  intros Hno. unfold validateDisputeParams, invalid.
  destruct (not_object arguments) eqn:Hobj; [done |].
  apply not_object_false in Hobj as [[l ->] | [o ->]]; [done |].
  simpl in *. destruct (default VUndefined (o !! "dispute_id")); try done.
  by destruct (Hno s).
Qed.

(** C3, as the code has it.  A [get_dispute] call whose arguments lack a
    string [dispute_id] ends in a thrown error without any request to the
    dispute endpoint: the log grows by the token request alone, and by that
    exactly when arguments are present and no credential is cached;
    otherwise nothing is sent. *)
Theorem get_dispute_rejected_before_dispute_request rt arguments w :
  (∀ s, prop arguments "dispute_id" ≠ Ok (VStr s)) →
  (∃ e, (callTool rt "get_dispute" arguments w).1 = Throw e)
  ∧ sent (callTool rt "get_dispute" arguments w).2
    = if truthy arguments && negb (truthy (accessToken w))
      then (sent w ++ [token_request rt])%list
      else sent w.
Proof.
  intros Hno%dispute_id_missing.
  assert (Hin : ("get_dispute", validateDisputeParams, ["dispute_id"]) ∈ validators)
    by apply (list_elem_of_lookup_2 validators 9 _ eq_refl).
  destruct (truthy arguments) eqn:Ha.
  - destruct (truthy (accessToken w)) eqn:Hc.
    + rewrite (validation_failure_rewrapped rt _ _ _ _ _ _ _ Hin Ha Hc Hno).
      simpl. eauto.
    + pose proof (getAccessToken_uncached rt w Hc) as Hsent.
      unfold callTool. rewrite Ha. change (negb true) with false. cbv iota.
      unfold mbind, M_bind.
      destruct (getAccessToken rt w) as [[token | e] w1]; simpl in Hsent.
      * unfold try_catch.
        rewrite (tool_switch_validation_failure rt _ _ _ _ _ _ _ Hin Hno).
        simpl. eauto.
      * simpl. eauto.
  - unfold callTool. rewrite Ha. simpl. eauto.
Qed.

(** The specification's example, [{}], in a process that holds a
    credential: the call throws and nothing is sent. *)
Lemma get_dispute_rejected_before_dispute_request_witness :
  (∃ e, (callTool online "get_dispute" (VObj ∅) with_credential).1 = Throw e)
  ∧ sent (callTool online "get_dispute" (VObj ∅) with_credential).2 = [].
Proof.
  apply (get_dispute_rejected_before_dispute_request online (VObj ∅) with_credential).
  intros s. vm_compute. discriminate.
Defined.

(** C3 as stated fails in a fresh process: [get_dispute] with [{}] sends
    the token request, and only then does validation reject the call. *)
Lemma get_dispute_fetches_token_before_validating :
  validateDisputeParams (VObj ∅)
    = Throw (McpError InvalidParams "Invalid dispute ID")
  ∧ callTool online "get_dispute" (VObj ∅) initial
    = (Throw (McpError InternalError "Invalid dispute ID"),
       {| accessToken := VStr "A21AAK"; sent := [token_request online] |})
  ∧ sent (callTool online "get_dispute" (VObj ∅) initial).2 ≠ [].
Proof.
  split; [reflexivity |]. split; [reflexivity |]. discriminate.
Qed.

(** ** The credential cache *)

Section Cache.
Context (rt : Runtime).

Lemma keeps_lift {A} (r : result A) : keeps_credential (lift r).
Proof. by intros w. Qed.

Lemma keeps_mret {A} (a : A) : keeps_credential (mret a : M A).
Proof. by intros w. Qed.

Lemma keeps_throw {A} e : keeps_credential (throw e : M A).
Proof. by intros w. Qed.

Lemma keeps_bind {A B} (m : M A) (f : A → M B) :
  keeps_credential m → (∀ a, keeps_credential (f a)) → keeps_credential (m ≫= f).
Proof.
  intros Hm Hf w. unfold mbind, M_bind.
  specialize (Hm w). destruct (m w) as [[a | e] w1]; simpl in Hm.
  - destruct (Hf a w1) as [-> ->]. done.
  - done.
Qed.

Lemma keeps_try_catch {A} (body : M A) handler :
  keeps_credential body → (∀ e, keeps_credential (handler e)) →
  keeps_credential (try_catch body handler).
Proof.
  intros Hm Hh w. unfold try_catch.
  specialize (Hm w). destruct (body w) as [[a | e] w1]; simpl in Hm.
  - done.
  - destruct (Hh e w1) as [-> ->]. done.
Qed.

Lemma keeps_send req : is_token_fetch req = false → keeps_credential (send rt req).
Proof.
  intros Hreq w. rewrite send_world. simpl. split; [done |].
  unfold fetches. simpl. rewrite filter_app, length_app. simpl.
  rewrite filter_cons_False by (simpl; rewrite Hreq; intros []). simpl. lia.
Qed.

Lemma keeps_post_tool validate path arguments headers :
  String.eqb (api ++ path) token_url = false →
  keeps_credential (post_tool rt validate path arguments headers).
Proof.
  intros Hpath. unfold post_tool.
  apply keeps_bind; [apply keeps_lift | intros args].
  apply keeps_bind; [by apply keeps_send | intros data; apply keeps_mret].
Qed.

Ltac keeps :=
  repeat first
    [ apply keeps_lift | apply keeps_mret | apply keeps_throw
    | apply keeps_post_tool; reflexivity
    | apply keeps_send; reflexivity
    | apply keeps_bind; [| intros ?] ].

Lemma keeps_tool_switch name arguments headers :
  keeps_credential (tool_switch rt name arguments headers).
Proof.
  unfold tool_switch, case_list_products, case_get_dispute, case_get_userinfo,
    case_create_invoice, axios_get, axios_post.
  repeat case_match; keeps.
Qed.

Lemma keeps_tool_catch e : keeps_credential (tool_catch rt e).
Proof. destruct e; keeps. Qed.

(** Once a credential is cached, a tool call neither replaces it nor
    fetches another. *)
Lemma callTool_keeps_credential name arguments w :
  truthy (accessToken w) = true →
  accessToken (callTool rt name arguments w).2 = accessToken w
  ∧ fetches (callTool rt name arguments w).2 = fetches w.
Proof.
  intros Hc. destruct (truthy arguments) eqn:Ha.
  - rewrite (callTool_with_credential rt _ _ _ Ha Hc).
    apply keeps_try_catch; [apply keeps_tool_switch | apply keeps_tool_catch].
  - unfold callTool. by rewrite Ha.
Qed.

Lemma run_keeps_credential calls w :
  truthy (accessToken w) = true →
  accessToken (run rt calls w) = accessToken w
  ∧ fetches (run rt calls w) = fetches w.
Proof.
  revert w. induction calls as [| [name arguments] calls IH]; intros w Hc; [done |].
  simpl. destruct (callTool_keeps_credential name arguments w Hc) as [Ha Hf].
  destruct (IH (callTool rt name arguments w).2) as [-> ->]; [by rewrite Ha |].
  done.
Qed.

End Cache.

(** C5.  The first call of the token provider in a fresh process sends
    exactly one token request.  A call that returns a credential has cached
    that credential, and it is a truthy value.  From then on every call of
    the provider returns the cached value and leaves the state and the log
    as they are, and no sequence of tool calls changes the cached value or
    adds a token request to the log.  Put together for one process: once
    the first call has returned a credential, then after any sequence of
    tool calls the provider returns that same credential, sends nothing,
    and the log holds one token request in all. *)
Theorem token_fetched_once_then_cached (rt : Runtime) :
  sent (getAccessToken rt initial).2 = [token_request rt]
  ∧ (∀ w tok w',
       getAccessToken rt w = (Ok tok, w') →
       truthy tok = true ∧ accessToken w' = tok)
  ∧ (∀ w,
       truthy (accessToken w) = true →
       getAccessToken rt w = (Ok (accessToken w), w))
  ∧ (∀ calls w,
       truthy (accessToken w) = true →
       accessToken (run rt calls w) = accessToken w
       ∧ fetches (run rt calls w) = fetches w)
  ∧ (∀ tok w1 calls,
       getAccessToken rt initial = (Ok tok, w1) →
       getAccessToken rt (run rt calls w1) = (Ok tok, run rt calls w1)
       ∧ fetches (run rt calls w1) = 1).
Proof.
  split; [by apply (getAccessToken_uncached rt initial) |].
  split; [apply getAccessToken_returns |].
  split; [apply getAccessToken_cached |].
  split; [apply run_keeps_credential |].
  intros tok w1 calls Hfirst.
  destruct (getAccessToken_returns rt _ _ _ Hfirst) as [Htok Hcache].
  assert (Hsent : sent w1 = [token_request rt]).
  { pose proof (getAccessToken_uncached rt initial) as Hs.
    rewrite Hfirst in Hs. by apply Hs. }
  assert (Hc : truthy (accessToken w1) = true) by (by rewrite Hcache).
  destruct (run_keeps_credential rt calls w1 Hc) as [Ha Hf].
  split.
  - rewrite <- Hcache at 1. rewrite <- Ha.
    apply getAccessToken_cached. by rewrite Ha.
  - rewrite Hf. unfold fetches. rewrite Hsent. reflexivity.
Qed.

(** A fresh process against a remote API that answers: the first call
    fetches once, the second returns the same credential and sends nothing,
    also after tool calls in between, and the log then holds one token
    request. *)
Lemma token_fetched_once_then_cached_witness :
  sent after_first_fetch = [token_request online]
  ∧ getAccessToken online after_first_fetch
    = (Ok (accessToken after_first_fetch), after_first_fetch)
  ∧ accessToken (run online [("get_dispute", VObj ∅); ("list_products", VObj ∅)]
                     after_first_fetch)
    = accessToken after_first_fetch
  ∧ fetches (run online [("get_dispute", VObj ∅); ("list_products", VObj ∅)]
                 after_first_fetch)
    = fetches after_first_fetch
  ∧ getAccessToken online initial = (Ok (VStr "A21AAK"), after_first_fetch)
  ∧ getAccessToken online
      (run online [("get_dispute", VObj ∅); ("list_products", VObj ∅)]
           after_first_fetch)
    = (Ok (VStr "A21AAK"),
       run online [("get_dispute", VObj ∅); ("list_products", VObj ∅)]
           after_first_fetch)
  ∧ fetches (run online [("get_dispute", VObj ∅); ("list_products", VObj ∅)]
                 after_first_fetch)
    = 1.
Proof.
  destruct (token_fetched_once_then_cached online)
    as (Hfirst & _ & Hcached & Hrun & Hprocess).
  split; [exact Hfirst |].
  split; [apply Hcached; reflexivity |].
  split; [apply Hrun; reflexivity |].
  split; [apply Hrun; reflexivity |].
  split; [reflexivity |].
  apply Hprocess. reflexivity.
Defined.

(** Where the remote API does not answer, the first call of the provider
    throws the axios error, nothing is cached, and a second call of the
    provider sends a second token request. *)
Lemma failed_fetch_is_repeated :
  (∃ e, (getAccessToken offline initial).1 = Throw (Axios e))
  ∧ sent after_failed_fetch = [token_request offline]
  ∧ sent (getAccessToken offline after_failed_fetch).2
    = [token_request offline; token_request offline].
Proof. split; [by eexists |]. split; reflexivity. Qed.

(** ** Optional fields *)

(** C8, at a payment whose [funding_instruments] has the wrong type: the
    validator succeeds and the value is in the validated payer as it came,
    whereas the payout item validator leaves a wrong-typed [note] out.  A
    [processing_state] that is [null] makes the referenced payout validator
    throw a TypeError. *)
Theorem wrong_typed_funding_instruments_forwarded :
  (∃ out payer,
     validatePayment payment_with_card_number = Ok out
     ∧ prop out "payer" = Ok payer
     ∧ prop payer "funding_instruments" = Ok (VStr "4111111111111111"))
  ∧ (∃ out,
       validatePayout_item payout_item_with_numeric_note = Ok (VObj out)
       ∧ out !! "note" = None)
  ∧ validateReferencedPayout_ref referenced_payout_with_null_state
    = Throw (TypeError VNull "status").
Proof.
  split; [| split].
  - eexists _, _. split; [reflexivity |]. split; reflexivity.
  - eexists. split; reflexivity.
  - reflexivity.
Qed.

(** ** Nested arrays *)

Lemma Array_map_Forall2 f arr validated :
  Array_map f arr = Ok validated → Forall2 (λ x y, f x = Ok y) arr validated.
Proof.
  revert validated. induction arr as [| x arr IH]; intros validated H; simpl in H.
  - injection H as <-. constructor.
  - apply bind_Ok in H as (y & Hy & H).
    apply bind_Ok in H as (ys & Hys & H). injection H as <-.
    constructor; [done | by apply IH].
Qed.



Lemma isArray_nonempty v :
  isArray v = true → (length (elements v) =? 0)%nat = false →
  ∃ first rest, v = VArr (first :: rest).
Proof. destruct v as [| | | | | [| first rest] |]; try discriminate. eauto. Qed.





(** ** Absent fields *)

Lemma read_undefined path : read VUndefined path = VUndefined.
Proof. by destruct path. Qed.

Lemma read_prop v k x rest : prop v k = Ok x → read v (k :: rest) = read x rest.
Proof.
  destruct v; simpl; try discriminate.
  all: intros [= <-]; by rewrite ?read_undefined.
Qed.

(** Following a path in the input along the property reads a validator has
    made. *)
Ltac follow_path Hread :=
  repeat match goal with
  | Hp : prop ?v ?k = Ok ?x |- _ =>
      rewrite (read_prop v k x _ Hp) in Hread
  end;
  simpl in Hread; subst.

Lemma read_obj o k rest :
  read (VObj o) (k :: rest) = read (default VUndefined (o !! k)) rest.
Proof. reflexivity. Qed.

(** Reading a path in an object a validator has built. *)
Ltac read_built :=
  repeat first
    [ rewrite read_obj
    | progress lookup_built
    | progress change (read ?v []) with v
    | progress change (default ?d (@Some value ?x)) with x
    | progress change (default ?d (@None value)) with d
    | progress change (is_string VUndefined) with false
    | progress change (is_number VUndefined) with false
    | progress change (false && ?b) with false
    | progress change (set_if false ?k ?v ?m) with m
    | rewrite read_undefined ].

Ltac split_guards :=
  repeat match goal with
  | H : _ || _ = false |- _ => apply orb_false_elim in H as [? ?]
  | H : _ && _ = true |- _ => apply andb_prop in H as [? ?]
  end.

Lemma recognized_fields_stay_absent validate path args out :
  (validate, path) ∈ recognized_fields →
  read args path = VUndefined →
  validate args = Ok out →
  read out path = VUndefined.
Proof.
  intros Hin Hread H. unfold recognized_fields in Hin. each_entry Hin.
  all: match type of H with ?f _ = _ => unfold f in H end.
  all: invert_validation H.
  all: follow_path Hread.
  all: split_guards; try discriminate.
  all: read_built.
  all: try done.
  all: rewrite lookup_set_if_eq; case_match; by read_built.
Qed.

(** What [validateReferencedPayout] puts in place of an absent [item_id],
    an absent [processing_state] and an absent [status]. *)
Lemma referenced_payout_defaults ref out :
  validateReferencedPayout_ref ref = Ok out →
  (read ref ["item_id"] = VUndefined → read out ["item_id"] = VStr "")
  ∧ (read ref ["processing_state"] = VUndefined →
     read out ["processing_state"]
     = VObj {[ "status" := VStr ""; "reason" := VUndefined ]})
  ∧ (read ref ["processing_state"; "status"] = VUndefined →
     read out ["processing_state"; "status"] = VStr "").
Proof.
  intros H. unfold validateReferencedPayout_ref in H. invert_validation H.
  all: repeat split; intros Hread; follow_path Hread; try discriminate.
  all: by read_built.
Qed.

(** What [validateWebProfile] puts in place of an absent section. *)
Lemma web_profile_defaults args out :
  validateWebProfile args = Ok out →
  (read args ["presentation"] = VUndefined → read out ["presentation"] = VObj ∅)
  ∧ (read args ["input_fields"] = VUndefined → read out ["input_fields"] = VObj ∅)
  ∧ (read args ["flow_config"] = VUndefined → read out ["flow_config"] = VObj ∅).
Proof.
  intros H. unfold validateWebProfile in H. invert_validation H.
  all: repeat split; intros Hread; follow_path Hread; try discriminate.
  all: by read_built.
Qed.

(** C10, as the code has it.  A recognized field that is absent from the
    input is absent or [undefined] in the validated output, for every
    validator and every callback of a map.  The exceptions are the
    referenced payout, whose absent [item_id] becomes the empty string and
    whose absent [processing_state] becomes an object with an empty
    [status] (as does an absent [status]), and the web profile, whose absent
    [presentation], [input_fields] and [flow_config] become empty objects. *)
Theorem absent_fields_stay_absent_but_for_defaults :
  (∀ validate path args out,
     (validate, path) ∈ recognized_fields →
     read args path = VUndefined →
     validate args = Ok out →
     read out path = VUndefined)
  ∧ (∀ ref out,
       validateReferencedPayout_ref ref = Ok out →
       (read ref ["item_id"] = VUndefined → read out ["item_id"] = VStr "")
       ∧ (read ref ["processing_state"] = VUndefined →
          read out ["processing_state"]
          = VObj {[ "status" := VStr ""; "reason" := VUndefined ]})
       ∧ (read ref ["processing_state"; "status"] = VUndefined →
          read out ["processing_state"; "status"] = VStr ""))
  ∧ (∀ args out,
       validateWebProfile args = Ok out →
       (read args ["presentation"] = VUndefined → read out ["presentation"] = VObj ∅)
       ∧ (read args ["input_fields"] = VUndefined → read out ["input_fields"] = VObj ∅)
       ∧ (read args ["flow_config"] = VUndefined → read out ["flow_config"] = VObj ∅)).
Proof.
  split; [apply recognized_fields_stay_absent |].
  split; [apply referenced_payout_defaults | apply web_profile_defaults].
Qed.

(** The specification's accepted order: its unit has no [description], and
    neither has the validated unit; the bare referenced payout gets an empty
    [item_id]. *)
Lemma absent_fields_stay_absent_but_for_defaults_witness :
  read (VObj {[ "amount" := VObj {[ "currency_code" := VStr "USD";
                                     "value" := VStr "10.00" ]} ]})
       ["description"] = VUndefined
  ∧ read (VObj {[ "item_id" := VStr "";
                  "processing_state" :=
                    VObj {[ "status" := VStr ""; "reason" := VUndefined ]};
                  "reference_id" := VStr "REF-1";
                  "reference_type" := VStr "TRANSACTION_ID";
                  "payout_amount" := VObj {[ "currency_code" := VStr "USD";
                                             "value" := VStr "10.00" ]};
                  "payout_destination" := VStr "MERCHANT-1" ]})
         ["item_id"] = VStr "".
Proof.
  destruct absent_fields_stay_absent_but_for_defaults as (Habsent & Hpayout & _).
  split.
  - apply (Habsent validatePayPalOrder_unit ["description"] usd_10).
    + apply (list_elem_of_lookup_2 recognized_fields 46). reflexivity.
    + reflexivity.
    + reflexivity.
  - apply (Hpayout bare_referenced_payout).
    + reflexivity.
    + reflexivity.
Defined.

(** C10 as stated fails on a referenced payout without [item_id] and
    [processing_state]: both are present in the validated payout. *)
Lemma referenced_payout_gets_defaults :
  validateReferencedPayout (VObj {[ "referenced_payouts" := VArr [bare_referenced_payout] ]})
  = Ok (VObj {[ "referenced_payouts" :=
        VArr [ VObj {[ "item_id" := VStr "";
                       "processing_state" :=
                         VObj {[ "status" := VStr ""; "reason" := VUndefined ]};
                       "reference_id" := VStr "REF-1";
                       "reference_type" := VStr "TRANSACTION_ID";
                       "payout_amount" := VObj {[ "currency_code" := VStr "USD";
                                                  "value" := VStr "10.00" ]};
                       "payout_destination" := VStr "MERCHANT-1" ]} ] ]}).
Proof. reflexivity. Qed.

(** ** Validation errors and what reaches the caller *)

(** ** What a validator can throw *)

Lemma bind_Throw {A B} (r : result A) (f : A → result B) e :
  r ≫= f = Throw e → r = Throw e ∨ ∃ a, r = Ok a ∧ f a = Throw e.
Proof. destruct r; simpl; [eauto | intros [= <-]; eauto]. Qed.

Lemma prop_Throw v k e :
  prop v k = Throw e → e = TypeError v k ∧ (v = VUndefined ∨ v = VNull).
Proof. destruct v; simpl; intros [= <-]; eauto. Qed.

Lemma Array_map_Throw f arr e :
  Array_map f arr = Throw e → ∃ x, x ∈ arr ∧ f x = Throw e.
Proof.
  induction arr as [| x arr IH]; simpl; [discriminate |].
  intros [H | (y & _ & H)]%bind_Throw.
  - exists x. split; [apply list_elem_of_here | done].
  - apply bind_Throw in H as [H | (ys & _ & H)]; [| discriminate].
    destruct (IH H) as (x' & Hx' & Hf). exists x'. split; [by apply list_elem_of_further | done].
Qed.

Lemma validation_error_invalid msg : validation_error (McpError InvalidParams msg).
Proof. left. eauto. Qed.

Lemma validation_error_prop v k e : prop v k = Throw e → validation_error e.
Proof. intros [-> Hv]%prop_Throw. right. eauto. Qed.

(** Taking a failed run of a validator apart: the statement that threw. *)
Ltac invert_throw H cb :=
  cbv zeta in H;
  lazymatch type of H with
  | prop _ _ = Throw _ => exact (validation_error_prop _ _ _ H)
  | invalid _ = Throw _ => injection H as <-; apply validation_error_invalid
  | Throw (McpError InvalidParams _) = Throw _ =>
      injection H as <-; apply validation_error_invalid
  | Ok _ = Throw _ => discriminate H
  | Array_map _ _ = Throw _ =>
      let x := fresh "x" in
      apply Array_map_Throw in H as (x & _ & H); cb H
  | (if ?c then _ else _) = Throw _ => destruct c; invert_throw H cb
  | mbind _ _ = Throw _ =>
      let a := fresh "a" in
      apply bind_Throw in H as [H | (a & _ & H)];
      [invert_throw H cb | invert_throw H cb]
  end.

Ltac no_callback H := fail "no map in a callback".

Lemma name_throws x e : validatePartnerReferral_name x = Throw e → validation_error e.
Proof. intros H. unfold validatePartnerReferral_name in H. invert_throw H no_callback. Qed.

Ltac name_callback H := exact (name_throws _ _ H).

Lemma callbacks_throw f x e : f ∈ callbacks → f x = Throw e → validation_error e.
Proof.
  intros Hin H. unfold callbacks in Hin. each_entry Hin.
  all: match type of H with ?f _ = _ => unfold f in H end.
  all: invert_throw H name_callback.
Qed.

Ltac any_callback H :=
  match type of H with
  | ?f _ = Throw _ =>
      apply (callbacks_throw f _ _ ltac:(unfold callbacks; repeat constructor) H)
  end.

Lemma validators_throw name validate keys args e :
  (name, validate, keys) ∈ validators → validate args = Throw e → validation_error e.
Proof.
  intros Hin H. unfold validators in Hin. each_entry Hin.
  all: match type of H with ?f _ = _ => unfold f in H end.
  all: invert_throw H any_callback.
Qed.

(** X2. Every validator but the pagination validator rejects, with
    InvalidParams, an argument that is not a plain object: [undefined],
    [null], a boolean, a number, a string, and also an array (which passes
    the [typeof] test and then lacks every required field). *)
Theorem strict_validators_reject_non_objects validate args :
  validate ∈ strict_validators →
  (∀ o, args ≠ VObj o) →
  ∃ msg, validate args = Throw (McpError InvalidParams msg).
Proof.
  intros Hin Hno. unfold strict_validators in Hin. each_entry Hin.
  all: destruct args as [| | b | n | s | l | o]; try (by destruct (Hno o)).
  all: eexists; reflexivity.
Qed.

(** ** Dispatcher: what reaches the caller *)

Section Reporting.
Context (rt : Runtime).

(** Sending a request and wrapping the reply, inside the [try]. *)
Lemma send_then_content req w :
  try_catch (send rt req ≫= λ data, mret (content rt data)) (tool_catch rt) w
  = (Ok (reported rt (axios rt (sent w) req)), logged w [req]).
Proof.
  unfold try_catch, mbind, M_bind, send, logged.
  by destruct (axios rt (sent w) req).
Qed.

Lemma bind_lift_Ok {A B} (r : result A) (a : A) (f : A → M B) w :
  r = Ok a → (lift r ≫= f) w = f a w.
Proof. by intros ->. Qed.

Lemma try_catch_bind_lift_Ok {A B} (r : result A) (a : A) (f : A → M B) h w :
  r = Ok a → try_catch (lift r ≫= f) h w = try_catch (f a) h w.
Proof. by intros ->. Qed.

(** The invoice rebuilt by the [create_invoice] case is the validated
    invoice. *)
Lemma invoice_rebuilt arguments payload headers w :
  validatePayPalInvoice arguments = Ok payload →
  try_catch (case_create_invoice rt arguments headers) (tool_catch rt) w
  = try_catch (axios_post rt "/v2/invoicing/invoices" payload headers
               ≫= λ data, mret (content rt data)) (tool_catch rt) w.
Proof.
  intros H. unfold case_create_invoice.
  rewrite (try_catch_bind_lift_Ok _ _ _ _ _ H).
  unfold validatePayPalInvoice in H. invert_validation H.
  split_guards.
  repeat match goal with
  | H : negb _ = false |- _ => apply negb_false_iff in H
  end.
  match goal with
  | Ha : isArray ?v = true, Hl : (length (elements ?v) =? 0)%nat = false |- _ =>
      destruct (isArray_nonempty v Ha Hl) as (first & rest & ->)
  end.
  repeat (erewrite try_catch_bind_lift_Ok;
          [| simpl prop; lookup_built; reflexivity]).
  reflexivity.
Qed.

(** X7. With a credential at hand and arguments that validate, each of the
    nine creating tools sends one POST to its path with the cached
    credential as bearer and the validated payload as body (for
    [create_invoice] the rebuilt invoice is the validated one), keeps the
    credential, and returns an envelope: the response body on success, the
    upstream message with the error flag on failure.  It never throws. *)
Theorem post_tools_report name validate keys path arguments payload w :
  (name, validate, keys) ∈ validators →
  (name, path) ∈ post_paths →
  truthy arguments = true →
  truthy (accessToken w) = true →
  validate arguments = Ok payload →
  callTool rt name arguments w
  = (let req := post_request path (template rt (accessToken w)) payload in
     (Ok (reported rt (axios rt (sent w) req)), logged w [req])).
Proof.
  intros Hin Hpath Ha Hc Hv.
  rewrite (callTool_with_credential rt _ _ _ Ha Hc).
  unfold validators in Hin. each_entry Hin.
  all: unfold post_paths in Hpath; each_entry Hpath.
  all: unfold tool_switch;
    repeat match goal with
    | |- context [String.eqb ?a ?b] =>
        let r := eval vm_compute in (String.eqb a b) in
        change (String.eqb a b) with r
    end; cbv iota.
  all: try (unfold post_tool; rewrite (try_catch_bind_lift_Ok _ _ _ _ _ Hv);
            apply send_then_content).
  rewrite (invoice_rebuilt _ _ _ _ Hv). apply send_then_content.
Qed.

End Reporting.

Section Caller.
Context (rt : Runtime).

(** X3. With a credential at hand, whatever a validator throws (InvalidParams
    or a TypeError) reaches the caller as an InternalError that carries the
    message of the thrown error, and nothing is sent. *)
Theorem validation_errors_become_InternalError name validate keys arguments w e :
  (name, validate, keys) ∈ validators →
  truthy arguments = true →
  truthy (accessToken w) = true →
  validate arguments = Throw e →
  callTool rt name arguments w
  = (Throw (McpError InternalError
              (nonempty_or (exn_message rt e) "An unexpected error occurred")), w).
Proof.
  intros Hin Ha Hc Hv.
  rewrite (callTool_with_credential rt _ _ _ Ha Hc). unfold try_catch.
  rewrite (tool_switch_validation_failure rt _ _ _ _ _ _ _ Hin Hv).
  by destruct (validators_throw _ _ _ _ _ Hin Hv) as [[msg ->] | (b & k & -> & _)].
Qed.

(** What the token provider can throw, and the state it leaves then: the
    token request has been sent, and the cache holds no usable value. *)
Lemma getAccessToken_throws w e w' :
  getAccessToken rt w = (Throw e, w') →
  ((∃ ae, e = Axios ae)
   ∨ e = Error "Failed to obtain access token"
   ∨ (∃ base, e = TypeError base "access_token"))
  ∧ truthy (accessToken w') = false
  ∧ sent w' = (sent w ++ [token_request rt])%list.
Proof.
  unfold getAccessToken, mbind, M_bind, get_accessToken.
  destruct (truthy (accessToken w)) eqn:Hc; [discriminate |].
  unfold send. destruct (axios rt (sent w) (token_request rt)) as [data | ae].
  - unfold lift, set_accessToken, throw, mret, M_ret.
    destruct (prop data "access_token") as [tok | e'] eqn:Hp.
    + destruct (truthy tok) eqn:Ht; [discriminate |].
      intros [= <- <-]. simpl. eauto.
    + intros [= <- <-]. apply prop_Throw in Hp as [-> _]. simpl. eauto 6.
  - intros [= <- <-]. simpl. eauto.
Qed.

(** A failure of the token provider leaves the handler as it is: it is
    thrown before the [try]. *)
Lemma token_failure_escapes name arguments w e w' :
  truthy arguments = true →
  getAccessToken rt w = (Throw e, w') →
  callTool rt name arguments w = (Throw e, w').
Proof.
  intros Ha Hg. unfold callTool. rewrite Ha.
  change (negb true) with false. cbv iota.
  unfold mbind, M_bind. by rewrite Hg.
Qed.



End Caller.

(** ** No retries *)

Section Retries.
Context (rt : Runtime).

Lemma one_throw {A} e : sends_at_most_one (throw e : M A).
Proof. intros w. simpl. eauto. Qed.

Lemma one_bind_lift {A B} (r : result A) (f : A → M B) :
  (∀ a, sends_at_most_one (f a)) → sends_at_most_one (lift r ≫= f).
Proof. intros Hf w. destruct r as [a | e]; [apply Hf | simpl; eauto]. Qed.

Lemma one_send_content req :
  is_token_fetch req = false →
  sends_at_most_one (send rt req ≫= λ data, mret (content rt data)).
Proof.
  intros Hreq w. unfold mbind, M_bind.
  pose proof (send_world rt req w) as Hs.
  destruct (send rt req w) as [[data | e] w1]; simpl in *; subst; simpl; eauto.
Qed.

Lemma one_try_catch (body : M Envelope) :
  sends_at_most_one body → sends_at_most_one (try_catch body (tool_catch rt)).
Proof.
  intros Hb w. specialize (Hb w). unfold try_catch.
  destruct (body w) as [[env | e] w1]; [done |]. by destruct e.
Qed.

Ltac one :=
  repeat first
    [ apply one_throw
    | apply one_send_content; reflexivity
    | apply one_bind_lift; intros ? ].

Lemma one_tool_switch name arguments headers :
  sends_at_most_one (tool_switch rt name arguments headers).
Proof.
  unfold tool_switch, post_tool, case_list_products, case_get_dispute,
    case_get_userinfo, case_create_invoice, axios_get, axios_post.
  repeat case_match; one.
Qed.

(** X6. A tool call appends to the log, in this order, the token request
    (exactly when arguments are present and no credential is cached) and at
    most one request to a tool endpoint.  Nothing is retried and nothing
    already in the log is touched. *)
Theorem callTool_sends_each_request_once name arguments w :
  ∃ fetch tool,
    sent (callTool rt name arguments w).2 = (sent w ++ fetch ++ tool)%list
    ∧ fetch = (if truthy arguments && negb (truthy (accessToken w))
               then [token_request rt] else [])
    ∧ (tool = [] ∨ ∃ req, is_token_fetch req = false ∧ tool = [req]).
Proof.
  unfold callTool. destruct (truthy arguments) eqn:Ha.
  - change (negb true) with false. cbv iota. unfold mbind, M_bind.
    destruct (truthy (accessToken w)) eqn:Hc.
    + rewrite (getAccessToken_cached rt w Hc).
      destruct (one_try_catch _ (one_tool_switch name arguments
                  (Bearer (template rt (accessToken w)))) w) as [_ [-> | (req & Hreq & ->)]].
      * exists [], []. simpl. rewrite ?app_nil_r. split_and!; eauto.
      * exists [], [req]. simpl. split_and!; eauto.
    + pose proof (getAccessToken_uncached rt w Hc) as Hsent.
      destruct (getAccessToken rt w) as [[token | e] w1]; simpl in Hsent.
      * destruct (one_try_catch _ (one_tool_switch name arguments
                    (Bearer (template rt token))) w1) as [_ [-> | (req & Hreq & ->)]].
        -- exists [token_request rt], []. rewrite Hsent. simpl.
           split_and!; eauto.
        -- exists [token_request rt], [req]. rewrite Hsent, <- app_assoc. simpl.
           split_and!; eauto.
      * exists [token_request rt], []. simpl. rewrite Hsent. split_and!; eauto.
  - exists [], []. simpl. rewrite app_nil_r. split_and!; eauto.
Qed.

End Retries.

(** ** The read tools and the registry *)

Section Registry.
Context (rt : Runtime).

(** X8. With a credential at hand, [get_dispute] puts the dispute id
    verbatim at the end of the disputes path and authenticates with the
    cached credential; [get_userinfo] authenticates with the caller's
    [access_token] and not with the cached credential.  Both report the
    reply as an envelope. *)
Theorem read_tools_report arguments s w :
  truthy (accessToken w) = true →
  (prop arguments "dispute_id" = Ok (VStr s) →
   callTool rt "get_dispute" arguments w
   = (let req := get_request ("/v1/customer/disputes/" ++ s)
                             (template rt (accessToken w)) in
      (Ok (reported rt (axios rt (sent w) req)), logged w [req])))
  ∧ (prop arguments "access_token" = Ok (VStr s) →
     callTool rt "get_userinfo" arguments w
     = (let req := get_request "/v1/identity/oauth2/userinfo" s in
        (Ok (reported rt (axios rt (sent w) req)), logged w [req]))).
Proof.
  intros Hc. split; intros Hp.
  all: assert (Ha : truthy arguments = true) by (by destruct arguments).
  all: assert (Hobj : not_object arguments = false) by (by destruct arguments).
  all: rewrite (callTool_with_credential rt _ _ _ Ha Hc).
  - change (tool_switch rt "get_dispute" arguments ?h) with (case_get_dispute rt arguments h).
    unfold case_get_dispute, validateDisputeParams. rewrite Hobj, Hp. simpl mbind.
    erewrite try_catch_bind_lift_Ok; [| reflexivity].
    erewrite try_catch_bind_lift_Ok; [| simpl prop; lookup_built; reflexivity].
    apply send_then_content.
  - change (tool_switch rt "get_userinfo" arguments ?h) with (case_get_userinfo rt arguments).
    unfold case_get_userinfo, validateTokenParams. rewrite Hobj, Hp. simpl mbind.
    erewrite try_catch_bind_lift_Ok; [| reflexivity].
    erewrite try_catch_bind_lift_Ok; [| simpl prop; lookup_built; reflexivity].
    apply send_then_content.
Qed.

Lemma throws_bind_lift {A B} (r : result A) (f : A → M B) :
  (∀ e, r = Throw e → validation_error e) →
  (∀ a, throws_validation_or_axios (f a)) →
  throws_validation_or_axios (lift r ≫= f).
Proof.
  intros Hr Hf w e w'. destruct r as [a | e0]; [apply Hf |].
  intros [= <- <-]. left. by apply Hr.
Qed.

Lemma throws_send_content req :
  throws_validation_or_axios (send rt req ≫= λ data, mret (content rt data)).
Proof.
  intros w e w'. unfold mbind, M_bind, send.
  destruct (axios rt (sent w) req); [discriminate |].
  intros [= <- <-]. eauto.
Qed.

Ltac throws :=
  repeat first
    [ apply throws_send_content
    | apply throws_bind_lift;
      [ first [ apply validation_error_prop
              | intros ? ?; eapply validators_throw; [| eassumption];
                unfold validators; repeat constructor ]
      | intros ? ] ].

Lemma registered_tools_throw name arguments headers :
  name ∈ registry →
  throws_validation_or_axios (tool_switch rt name arguments headers).
Proof.
  intros Hin. unfold registry in Hin. each_entry Hin.
  all: unfold tool_switch;
    repeat match goal with
    | |- context [String.eqb ?a ?b] =>
        let r := eval vm_compute in (String.eqb a b) in
        change (String.eqb a b) with r
    end; cbv iota.
  all: unfold post_tool, case_list_products, case_get_dispute, case_get_userinfo,
         case_create_invoice, axios_get, axios_post.
  all: throws.
Qed.

(** X9. The advertised tool names are pairwise distinct, and the [default]
    branch of the switch (MethodNotFound) is reached by the names outside
    the registry and by no registered name, whatever the arguments. *)
Theorem registry_is_the_switch :
  NoDup registry
  ∧ ∀ name arguments headers w,
      (∃ msg w', tool_switch rt name arguments headers w
                 = (Throw (McpError MethodNotFound msg), w'))
      ↔ name ∉ registry.
Proof.
  split.
  - apply (bool_decide_unpack _). by vm_compute.
  - intros name arguments headers w. split.
    + intros (msg & w' & H) Hin.
      destruct (registered_tools_throw name arguments headers Hin _ _ _ H)
        as [[[msg' [=]] | (b & k & [=] & _)] | [ae [=]]].
    + intros Hout. rewrite tool_switch_unknown by done. unfold throw. eauto.
Qed.

End Registry.

(** ** Empty arrays *)

Lemma empty_arrays_rejected validate k args :
  (validate, k) ∈ nonempty_arrays →
  prop args k = Ok (VArr []) →
  ∃ msg, validate args = Throw (McpError InvalidParams msg).
Proof.
  intros Hin Hk. unfold nonempty_arrays in Hin. each_entry Hin.
  all: destruct args as [| | b | n | s | l | o]; try discriminate.
  all: match goal with |- ∃ _, ?f _ = _ => unfold f, invalid end.
  all: rewrite ?Hk; simpl in *; injection Hk as Hk; rewrite ?Hk; simpl.
  all: rewrite ?orb_true_r; simpl; eauto.
Qed.

Lemma referral_without_owners_accepted email business_name type :
  validatePartnerReferral
    (VObj {[ "individual_owners" := VArr [];
             "business_entity" :=
               VObj {[ "business_type" := VObj {[ "type" := VStr type ]};
                       "business_name" := VStr business_name ]};
             "email" := VStr email ]})
  = Ok (VObj {[ "individual_owners" := VArr [];
                "business_entity" :=
                  VObj {[ "business_type" := VObj {[ "type" := VStr type ]};
                          "business_name" := VStr business_name ]};
                "email" := VStr email ]}).
Proof. reflexivity. Qed.


Lemma obj_insert_eq (m : gmap string value) i x : <[i := x]> m !! i = Some x.
Proof. apply lookup_insert_eq. Qed.

Lemma obj_insert_ne (m : gmap string value) i j x :
  String.eqb i j = false → <[i := x]> m !! j = m !! j.
Proof. intros H%String.eqb_neq. by apply lookup_insert_ne. Qed.

Lemma obj_singleton_eq i (x : value) : ({[i := x]} : gmap string value) !! i = Some x.
Proof. apply lookup_singleton_eq. Qed.

Lemma obj_singleton_ne i j (x : value) :
  String.eqb i j = false → ({[i := x]} : gmap string value) !! j = None.
Proof. intros H%String.eqb_neq. by apply lookup_singleton_ne. Qed.

Lemma obj_empty k : (∅ : gmap string value) !! k = None.
Proof. apply lookup_empty. Qed.

Lemma obj_set_if_ne c k k' v (m : gmap string value) :
  String.eqb k k' = false → set_if c k v m !! k' = m !! k'.
Proof. intros H%String.eqb_neq. by apply lookup_set_if_ne. Qed.

Ltac lookup_literal :=
  repeat first
    [ rewrite obj_insert_eq
    | rewrite obj_singleton_eq
    | rewrite obj_empty
    | rewrite obj_insert_ne by reflexivity
    | rewrite obj_singleton_ne by reflexivity
    | rewrite obj_set_if_ne by reflexivity ].

Ltac read_literal :=
  repeat first
    [ rewrite read_obj
    | progress lookup_literal
    | progress change (read ?v []) with v
    | progress change (default ?d (@Some value ?x)) with x
    | progress change (default ?d (@None value)) with d
    | progress change (is_string VUndefined) with false
    | progress change (is_number VUndefined) with false
    | progress change (false && ?b) with false
    | progress change (set_if false ?k ?v ?m) with m
    | rewrite read_undefined ].

Ltac follow_path_goal :=
  repeat match goal with
  | Hp : prop ?v ?k = Ok ?x |- context [read ?v (?k :: ?rest)] =>
      rewrite (read_prop v k x rest Hp)
  end;
  change (read ?v []) with v.

Lemma includes_string lits v : includes lits v = true → is_string v = true.
Proof. by destruct v. Qed.

(** X11. A field of primitive type that a validator copies is, in the
    validated output, the very value of the input when that value has the
    type the code asks for, and [undefined] otherwise: values are neither
    converted nor trimmed nor defaulted. *)
Theorem copied_fields_verbatim validate path type args out :
  (validate, path, type) ∈ copied_fields →
  validate args = Ok out →
  read out path
  = if String.eqb (typeof (read args path)) type then read args path else VUndefined.
Proof.
  intros Hin H. unfold copied_fields in Hin. each_entry Hin.
  all: match type of H with ?f _ = _ => unfold f in H end.
  all: invert_validation H.
  all: split_guards.
  all: repeat match goal with
       | H : negb _ = false |- _ => apply negb_false_iff in H
       | H : includes _ _ = true |- _ => apply includes_string in H
       end.
  all: follow_path_goal.
  all: read_literal.
  all: repeat match goal with
       | Hc : truthy ?v && is_object ?v = false |- context [read ?v _] =>
           destruct v; try discriminate Hc; change (read _ (_ :: _)) with VUndefined
       end.
  all: try rewrite lookup_set_if_eq.
  all: unfold is_string, is_number in *.
  all: repeat case_match; read_literal.
  all: repeat match goal with
       | H : String.eqb (typeof ?v) ?t = _ |- context [String.eqb (typeof ?v) ?t] =>
           rewrite H
       end.
  all: done.
Qed.


(** ** The declared interfaces *)

Lemma conforms_array elem (f : value → result value) arr l :
  (∀ x y, f x = Ok y → conforms elem y) →
  Array_map f arr = Ok l →
  conforms (TArray elem) (VArr l).
Proof.
  intros Hf H. apply Array_map_Forall2 in H.
  exists l. split; [done |].
  induction H as [| x y arr l Hxy _ IH]; [done |].
  split; [by apply (Hf x) | done].
Qed.

Ltac prepare H :=
  match type of H with ?f _ = _ => unfold f in H end;
  invert_validation H;
  split_guards;
  repeat match goal with
  | H : negb _ = false |- _ => apply negb_false_iff in H
  end.

(** Checking an object a validator has built against an object type, field
    by field; [arrays] closes the goals for the arrays it holds. *)
Ltac conform arrays :=
  cbn [conforms map fst snd required optional Amount];
  eexists; split; [reflexivity |];
  split; [intros ? Hk; split_not_elem_of Hk; by lookup_built |];
  repeat split;
  lookup_built;
  try lazymatch goal with
  | |- context [set_if ?c ?k _ _ !! ?k] =>
      rewrite lookup_set_if_eq; destruct c eqn:?; lookup_built
  end;
  cbv beta iota;
  try lazymatch goal with
  | |- context [if ?c then _ else _] => destruct c eqn:?
  end;
  split_guards;
  lazymatch goal with
  | |- true = true => reflexivity
  | |- _ ∨ (∃ o, VObj _ = VObj o ∧ _) => right; conform arrays
  | |- _ ∨ (∃ l, VArr _ = VArr l ∧ _) => right; arrays
  | |- _ ∨ _ => first [left; split; reflexivity | right; first [assumption | exact I | reflexivity]]
  end.

Ltac no_arrays := fail "no array here".

Lemma conforms_transaction x y :
  validatePayment_transaction x = Ok y → conforms PaymentTransaction y.
Proof. intros H. prepare H. unfold PaymentTransaction. conform no_arrays. Qed.

Lemma conforms_payout_item x y :
  validatePayout_item x = Ok y → conforms PayoutItem y.
Proof. intros H. prepare H. unfold PayoutItem. conform no_arrays. Qed.

Lemma conforms_referenced_payout_item x y :
  validateReferencedPayout_ref x = Ok y →
  conforms (ReferencedPayoutItem_with TAny TAny) y.
Proof. intros H. prepare H. all: unfold ReferencedPayoutItem_with; conform no_arrays. Qed.

Lemma conforms_purchase_unit x y :
  validatePayPalOrder_unit x = Ok y → conforms PurchaseUnit y.
Proof. intros H. prepare H. unfold PurchaseUnit. conform no_arrays. Qed.

Lemma conforms_owner_name x y :
  validatePartnerReferral_name x = Ok y → conforms OwnerName y.
Proof. intros H. prepare H. unfold OwnerName. conform no_arrays. Qed.

Ltac array_of lem := fold conforms; eapply conforms_array; [apply lem | eassumption].

Lemma conforms_owner x y :
  validatePartnerReferral_owner x = Ok y → conforms Owner y.
Proof.
  intros H. prepare H. unfold Owner.
  conform ltac:(array_of conforms_owner_name).
Qed.

Lemma conforms_invoice_item x y :
  validatePayPalInvoice_item x = Ok y → conforms InvoiceItem y.
Proof. intros H. prepare H. unfold InvoiceItem. conform no_arrays. Qed.

Lemma conforms_return_types validate T args out :
  (validate, T) ∈ return_types →
  validate args = Ok out →
  conforms T out.
Proof.
  intros Hin H. unfold return_types in Hin. each_entry Hin.
  - by apply (conforms_transaction args).
  - by apply (conforms_payout_item args).
  - by apply (conforms_referenced_payout_item args).
  - by apply (conforms_purchase_unit args).
  - by apply (conforms_owner_name args).
  - by apply (conforms_owner args).
  - by apply (conforms_invoice_item args).
  - prepare H. all: unfold PayPalPaymentToken; conform no_arrays.
  - prepare H. unfold PayPalPayment_with.
    conform ltac:(array_of conforms_transaction).
  - prepare H. all: unfold PayPalPayout; conform ltac:(array_of conforms_payout_item).
  - prepare H. unfold PayPalReferencedPayout_with.
    conform ltac:(array_of conforms_referenced_payout_item).
  - prepare H. unfold PayPalOrder. conform ltac:(array_of conforms_purchase_unit).
  - prepare H. unfold PayPalPartnerReferral. conform ltac:(array_of conforms_owner).
  - prepare H. all: unfold PayPalWebProfile; conform no_arrays.
  - prepare H. unfold PayPalProduct. conform no_arrays.
  - prepare H. all: unfold PaginationParams; conform no_arrays.
  - prepare H. unfold DisputeParams. conform no_arrays.
  - prepare H. unfold TokenParams. conform no_arrays.
  - prepare H. unfold PayPalInvoice.
    conform ltac:(first [ array_of conforms_invoice_item
                        | eexists; split; [reflexivity |];
                          split; [conform no_arrays | exact I] ]).
Qed.

(** A field of a value of an object type. *)
Lemma conforms_field fields o k opt t x :
  conforms (TObject fields) (VObj o) →
  (k, opt, t) ∈ fields →
  o !! k = Some x →
  (opt = true ∧ x = VUndefined) ∨ conforms t x.
Proof.
  intros (o' & [= <-] & _ & H) Hin Hx.
  induction fields as [| [[k' opt'] t'] fields IH]; [by apply elem_of_nil in Hin |].
  destruct H as [Hfield Hrest].
  apply elem_of_cons in Hin as [[= -> -> ->] | Hin]; [| by apply IH].
  by rewrite Hx in Hfield.
Qed.

Lemma conforms_element elem l x :
  conforms (TArray elem) (VArr l) → x ∈ l → conforms elem x.
Proof.
  intros (l' & [= <-] & H) Hx.
  induction l as [| y l IH]; [by apply elem_of_nil in Hx |].
  destruct H as [Hy Hrest].
  apply elem_of_cons in Hx as [-> | Hx]; [done | by apply IH].
Qed.

Ltac field_of H k :=
  eapply (conforms_field _ _ k) in H; [| repeat constructor | reflexivity].

Lemma declared_payment_not_met :
  ∃ out, validatePayment payment_with_card_number = Ok out
         ∧ ¬ conforms PayPalPayment out.
Proof.
  eexists. split; [reflexivity |].
  intros H.
  field_of H "payer". destruct H as [[[=] _] | H].
  field_of H "funding_instruments". by destruct H as [[_ [=]] | (l & [=] & _)].
Qed.

Lemma declared_referenced_payout_not_met :
  ∃ out, validateReferencedPayout
           (VObj {[ "referenced_payouts" :=
                      VArr [referenced_payout_with_numeric_status] ]}) = Ok out
         ∧ ¬ conforms PayPalReferencedPayout out.
Proof.
  eexists. split; [reflexivity |].
  intros H.
  field_of H "referenced_payouts". destruct H as [[[=] _] | H].
  eapply conforms_element in H; [| apply list_elem_of_here].
  field_of H "processing_state". destruct H as [[[=] _] | H].
  field_of H "status". by destruct H as [[[=] _] | [=]].
Qed.


Lemma Array_map_length f arr l : Array_map f arr = Ok l → length l = length arr.
Proof. intros H%Array_map_Forall2. symmetry. by eapply Forall2_length. Qed.

Lemma Array_map_idempotent f arr l :
  (∀ x y, f x = Ok y → f y = Ok y) →
  Array_map f arr = Ok l → Array_map f l = Ok l.
Proof.
  intros Hf H%Array_map_Forall2.
  induction H as [| x y arr l Hxy _ IH]; [done |].
  simpl. by rewrite (Hf x y Hxy), IH.
Qed.

(** Lookups with literal keys. *)
Ltac literal_neq := apply String.eqb_neq; reflexivity.

(** Running a validator on an object a validator has built: one property
    read at a time, each lookup settled on its own. *)
Ltac read_property :=
  match goal with
  | |- context [prop (VObj ?m) ?k] =>
      let E := fresh "E" in
      let r := fresh "r" in
      evar (r : option value);
      assert (E : m !! k = r)
        by (subst r; try unfold m; lookup_literal; reflexivity);
      subst r;
      change (prop (VObj m) k) with (Ok (default VUndefined (m !! k)));
      rewrite E; clear E
  end.

Ltac rerun :=
  repeat first
    [ read_property
    | progress cbn [mbind result_bind negb orb andb isArray elements hd]
    | progress change (default ?d (@Some value ?x)) with x
    | progress change (default ?d (@None value)) with d
    | progress change (not_object (VObj ?o)) with false
    | progress change (truthy (VObj ?o)) with true
    | progress change (is_object (VObj ?o)) with true
    | progress change (is_string (VObj ?o)) with false
    | progress change (truthy VUndefined) with false
    | progress change (is_object VUndefined) with false
    | progress change (is_string VUndefined) with false
    | progress change (is_number VUndefined) with false
    | progress change (is_string (VStr ?s)) with true
    | progress change (truthy (VStr "")) with false
    | progress change (includes ?l VUndefined) with false
    | progress unfold set_if
    | progress cbv iota
    | match goal with
      | H : ?b = true |- context [?b] => rewrite H
      | H : ?b = false |- context [?b] => rewrite H
      | H : Array_map ?f ?l = Ok ?l |- context [Array_map ?f ?l] => rewrite H
      | H : (length ?l =? 0)%nat = _ |- context [(length ?l =? 0)%nat] => rewrite H
      end ].

Ltac idem arrays :=
  unfold set_if;
  repeat (case_match; split_guards);
  repeat match goal with
  | Hm : Array_map ?f ?arr = Ok ?l |- _ =>
      let Hl := fresh "Hl" in
      let Hi := fresh "Hi" in
      assert (Hl : (length l =? 0)%nat = (length arr =? 0)%nat)
        by (by rewrite (Array_map_length f arr l Hm));
      assert (Hi : Array_map f l = Ok l)
        by (apply (Array_map_idempotent f arr l); [arrays | exact Hm]);
      clear Hm
  end;
  match goal with
  | |- ?f (VObj ?m) = _ => let built := fresh "built" in set (built := m); unfold f, invalid
  end;
  rerun;
  try reflexivity.

Lemma callbacks_idempotent f x y :
  f ∈ [ validatePayment_transaction; validatePayout_item;
        validateReferencedPayout_ref; validatePayPalOrder_unit;
        validatePartnerReferral_name; validatePayPalInvoice_item ] →
  f x = Ok y → f y = Ok y.
Proof.
  intros Hin H. each_entry Hin.
  all: prepare H.
  all: idem fail.
Qed.

Ltac callback :=
  let Hxy := fresh in
  intros ? ? Hxy; eapply callbacks_idempotent; [| exact Hxy]; repeat constructor.

Lemma owner_idempotent x y :
  validatePartnerReferral_owner x = Ok y → validatePartnerReferral_owner y = Ok y.
Proof.
  intros H. prepare H.
  idem callback.
Qed.

Lemma default_guarded (c : bool) (v : value) :
  default VUndefined (if c then Some v else None) = if c then v else VUndefined.
Proof. by destruct c. Qed.

Lemma set_if_reread (test : value → bool) a k (m : gmap string value) :
  test VUndefined = false →
  set_if (test (if test a then a else VUndefined)) k (if test a then a else VUndefined) m
  = set_if (test a) k a m.
Proof. intros Hu. destruct (test a) eqn:E; by rewrite ?E, ?Hu. Qed.

Ltac lookup_guarded :=
  repeat first
    [ rewrite obj_insert_eq
    | rewrite obj_singleton_eq
    | rewrite obj_empty
    | rewrite lookup_set_if_eq
    | rewrite obj_insert_ne by reflexivity
    | rewrite obj_singleton_ne by reflexivity
    | rewrite obj_set_if_ne by reflexivity ].

Ltac read_guarded :=
  match goal with
  | |- context [prop (VObj ?m) ?k] =>
      let E := fresh "E" in
      let r := fresh "r" in
      evar (r : option value);
      assert (E : m !! k = r)
        by (subst r; try unfold m; lookup_guarded; reflexivity);
      subst r;
      change (prop (VObj m) k) with (Ok (default VUndefined (m !! k)));
      rewrite E; clear E
  end.

Ltac rerun_guarded :=
  repeat first
    [ read_guarded
    | progress cbn [mbind result_bind negb orb andb]
    | rewrite default_guarded
    | rewrite (set_if_reread is_string) by reflexivity
    | rewrite (set_if_reread is_number) by reflexivity
    | progress change (default ?d (@Some value ?x)) with x
    | progress change (default ?d (@None value)) with d
    | progress change (not_object (VObj ?o)) with false
    | progress change (truthy (VObj ?o)) with true
    | progress change (is_object (VObj ?o)) with true
    | progress change (is_string VUndefined) with false
    | progress change (is_number VUndefined) with false
    | progress change (set_if false ?k ?v ?m) with m
    | progress cbv iota
    | match goal with
      | H : ?b = true |- context [?b] => rewrite H
      end ].

Lemma web_profile_idempotent args out :
  validateWebProfile args = Ok out → validateWebProfile out = Ok out.
Proof.
  intros H. prepare H.
  all: match goal with
       | |- ?f (VObj ?m) = _ =>
           let built := fresh "built" in set (built := m); unfold f, invalid
       end.
  all: rerun_guarded.
  all: reflexivity.
Qed.

(** X13. Validation is idempotent: a validator (or a callback) applied to
    what it has returned succeeds and returns it unchanged. *)
Theorem validators_idempotent validate args out :
  validate ∈ all_validators →
  validate args = Ok out →
  validate out = Ok out.
Proof.
  intros Hin H. unfold all_validators in Hin. each_entry Hin.
  1-5, 7: by apply (callbacks_idempotent _ args); [repeat constructor |].
  1: by apply (owner_idempotent args).
  7: by apply (web_profile_idempotent args).
  all: prepare H.
  all: idem ltac:(first [ exact owner_idempotent | callback ]).
Qed.


(** ** Statements over all validators and tools *)

(** X1. A validator, or a callback of one of its maps, throws nothing but
    the protocol error InvalidParams or the TypeError of a property read on
    [null] or [undefined]. *)
Theorem validators_throw_only_validation_errors validate args e :
  validate ∈ all_validators →
  validate args = Throw e →
  validation_error e.
Proof.
  intros Hin H. unfold all_validators in Hin. each_entry Hin.
  1-7: eapply callbacks_throw; [| exact H]; unfold callbacks; repeat constructor.
  all: eapply validators_throw; [| exact H]; unfold validators; repeat constructor.
Qed.

Lemma validators_throw_only_validation_errors_witness :
  validation_error (TypeError VNull "amount").
Proof.
  apply (validators_throw_only_validation_errors validatePayPalOrder
           (VObj {[ "intent" := VStr "CAPTURE"; "purchase_units" := VArr [VNull] ]})).
  - unfold all_validators. repeat constructor.
  - reflexivity.
Defined.

Lemma strict_validators_reject_non_objects_witness :
  ∃ msg, validatePayPalInvoice (VArr [usd_item]) = Throw (McpError InvalidParams msg).
Proof.
  apply strict_validators_reject_non_objects.
  - unfold strict_validators. repeat constructor.
  - discriminate.
Defined.

Lemma validation_errors_become_InternalError_witness :
  callTool online "create_order"
    (VObj {[ "intent" := VStr "CAPTURE"; "purchase_units" := VArr [VNull] ]})
    with_credential
  = (Throw (McpError InternalError "amount"), with_credential).
Proof.
  apply (validation_errors_become_InternalError online "create_order"
           validatePayPalOrder ["intent"; "purchase_units"]
           (VObj {[ "intent" := VStr "CAPTURE"; "purchase_units" := VArr [VNull] ]})
           with_credential (TypeError VNull "amount")).
  - apply (list_elem_of_lookup_2 validators 4). reflexivity.
  - reflexivity.
  - reflexivity.
  - reflexivity.
Defined.


(** X5. A failure of the token provider reaches the caller of any tool as
    it was thrown: a failed HTTP call, the plain error 'Failed to obtain
    access token' or a TypeError, never a protocol error and never an error
    envelope.  Only the token request has been sent and the cache still
    holds no usable value. *)
Theorem token_failure_reaches_caller rt name arguments w e w' :
  truthy arguments = true →
  getAccessToken rt w = (Throw e, w') →
  callTool rt name arguments w = (Throw e, w')
  ∧ ((∃ ae, e = Axios ae)
     ∨ e = Error "Failed to obtain access token"
     ∨ (∃ base, e = TypeError base "access_token"))
  ∧ truthy (accessToken w') = false
  ∧ sent w' = (sent w ++ [token_request rt])%list.
Proof.
  intros Ha Hg. split; [by apply token_failure_escapes |].
  by apply getAccessToken_throws.
Qed.

Lemma token_failure_reaches_caller_witness :
  callTool offline "create_order" refund_order initial
  = (Throw (Axios {| response_data_message := None;
                     axios_message := "connect ECONNREFUSED" |}),
     after_failed_fetch)
  ∧ ((∃ ae, Axios {| response_data_message := None;
                     axios_message := "connect ECONNREFUSED" |} = Axios ae)
     ∨ Axios {| response_data_message := None;
                axios_message := "connect ECONNREFUSED" |}
       = Error "Failed to obtain access token"
     ∨ (∃ base, Axios {| response_data_message := None;
                         axios_message := "connect ECONNREFUSED" |}
                = TypeError base "access_token"))
  ∧ truthy (accessToken after_failed_fetch) = false
  ∧ sent after_failed_fetch = (sent initial ++ [token_request offline])%list.
Proof.
  apply (token_failure_reaches_caller offline "create_order" refund_order initial).
  - reflexivity.
  - reflexivity.
Defined.

Lemma post_tools_report_witness :
  callTool online "create_order"
    (VObj {[ "intent" := VStr "CAPTURE"; "purchase_units" := VArr [usd_10] ]})
    with_credential
  = (Ok {| text := "{}"; isError := false |},
     logged with_credential
       [ post_request "/v2/checkout/orders" "A21AAK"
           (VObj {[ "intent" := VStr "CAPTURE";
                    "purchase_units" := VArr [usd_10] ]}) ]).
Proof.
  apply (post_tools_report online "create_order" validatePayPalOrder
           ["intent"; "purchase_units"] "/v2/checkout/orders").
  - apply (list_elem_of_lookup_2 validators 4). reflexivity.
  - apply (list_elem_of_lookup_2 post_paths 4). reflexivity.
  - reflexivity.
  - reflexivity.
  - reflexivity.
Defined.

Lemma read_tools_report_witness :
  callTool offline "get_userinfo" (VObj {[ "access_token" := VStr "caller-token" ]})
    with_credential
  = (Ok {| text := "PayPal API error: connect ECONNREFUSED"; isError := true |},
     logged with_credential
       [ get_request "/v1/identity/oauth2/userinfo" "caller-token" ]).
Proof.
  apply (read_tools_report offline
           (VObj {[ "access_token" := VStr "caller-token" ]}) "caller-token"
           with_credential).
  - reflexivity.
  - reflexivity.
Defined.

Lemma registry_is_the_switch_witness :
  ∃ msg w', tool_switch online "refund_payment" (VObj ∅) (Bearer "A21AAK") initial
            = (Throw (McpError MethodNotFound msg), w').
Proof.
  apply (proj2 (registry_is_the_switch online)).
  intros Hin. by apply (bool_decide_pack _) in Hin.
Defined.

(** X10. An empty array where a validator maps over a required array is
    rejected with InvalidParams: transactions, payout items, referenced
    payouts, purchase units, the names of an owner, and the recipients and
    items of an invoice.  The owners of a partner referral are the
    exception: a referral without owners is accepted. *)
Theorem empty_arrays_rejected_but_for_owners :
  (∀ validate k args,
     (validate, k) ∈ nonempty_arrays →
     prop args k = Ok (VArr []) →
     ∃ msg, validate args = Throw (McpError InvalidParams msg))
  ∧ (∀ email business_name type,
       ∃ out, validatePartnerReferral
                (VObj {[ "individual_owners" := VArr [];
                         "business_entity" :=
                           VObj {[ "business_type" := VObj {[ "type" := VStr type ]};
                                   "business_name" := VStr business_name ]};
                         "email" := VStr email ]}) = Ok out
              ∧ prop out "individual_owners" = Ok (VArr [])).
Proof.
  split; [apply empty_arrays_rejected |].
  intros email business_name type.
  rewrite referral_without_owners_accepted. eexists. split; reflexivity.
Qed.

Lemma empty_arrays_rejected_but_for_owners_witness :
  ∃ msg, validatePayPalOrder
           (VObj {[ "intent" := VStr "CAPTURE"; "purchase_units" := VArr [] ]})
         = Throw (McpError InvalidParams msg).
Proof.
  apply (proj1 empty_arrays_rejected_but_for_owners validatePayPalOrder "purchase_units").
  - apply (list_elem_of_lookup_2 nonempty_arrays 3). reflexivity.
  - reflexivity.
Defined.

Lemma copied_fields_verbatim_witness :
  read (VObj {[ "recipient_type" := VStr "EMAIL";
                "amount" := VObj {[ "value" := VStr "10.00"; "currency" := VStr "USD" ]};
                "receiver" := VStr "payee@example.com" ]})
       ["note"]
  = if String.eqb (typeof (read payout_item_with_numeric_note ["note"])) "string"
    then read payout_item_with_numeric_note ["note"]
    else VUndefined.
Proof.
  apply (copied_fields_verbatim validatePayout_item ["note"] "string"
           payout_item_with_numeric_note).
  - apply (list_elem_of_lookup_2 copied_fields 15). reflexivity.
  - reflexivity.
Defined.

(** X12. What a validator or a callback returns has the type its signature
    declares, and no property the type does not declare, with two fields
    left open: [payer.funding_instruments] of a payment and
    [processing_state.status] and [.reason] of a referenced payout.  With
    those fields as declared the interfaces are not met. *)
Theorem validated_outputs_have_declared_types :
  (∀ validate T args out,
     (validate, T) ∈ return_types →
     validate args = Ok out →
     conforms T out)
  ∧ (∃ out, validatePayment payment_with_card_number = Ok out
            ∧ ¬ conforms PayPalPayment out)
  ∧ (∃ out, validateReferencedPayout
              (VObj {[ "referenced_payouts" :=
                         VArr [referenced_payout_with_numeric_status] ]}) = Ok out
            ∧ ¬ conforms PayPalReferencedPayout out).
Proof.
  split; [apply conforms_return_types |].
  split; [apply declared_payment_not_met | apply declared_referenced_payout_not_met].
Qed.

Lemma validated_outputs_have_declared_types_witness :
  conforms PayPalOrder
    (VObj {[ "intent" := VStr "CAPTURE"; "purchase_units" := VArr [usd_10] ]}).
Proof.
  apply (proj1 validated_outputs_have_declared_types validatePayPalOrder PayPalOrder
           (VObj (<["payer_note" := VStr "smuggled"]>
                    {[ "intent" := VStr "CAPTURE";
                       "purchase_units" := VArr [usd_10] ]}))).
  - apply (list_elem_of_lookup_2 return_types 11). reflexivity.
  - reflexivity.
Defined.

Lemma validators_idempotent_witness :
  validatePayout_item
    (VObj {[ "recipient_type" := VStr "EMAIL";
             "amount" := VObj {[ "value" := VStr "10.00"; "currency" := VStr "USD" ]};
             "receiver" := VStr "payee@example.com" ]})
  = Ok (VObj {[ "recipient_type" := VStr "EMAIL";
                "amount" := VObj {[ "value" := VStr "10.00"; "currency" := VStr "USD" ]};
                "receiver" := VStr "payee@example.com" ]}).
Proof.
  apply (validators_idempotent validatePayout_item payout_item_with_numeric_note).
  - unfold all_validators. repeat constructor.
  - reflexivity.
Defined.
